(** * gen-go-code.py: the remote-command wrapper generator of kitty

    A shallow embedding of the part of [gen-go-code.py] that compiles the
    protocol field specification of a remote command, together with its
    option list, into Go declarations and payload bindings, and of the
    writer that only touches a generated file when its content changed.

    Conventions of the model:
    - a Python [str] is a [string]; the case conversions, the whitespace
      test of [strip] and the line boundaries of [splitlines] are those of
      Python on ASCII text, which is what the protocol specifications are
      written in;
    - a Python [dict] that is only looked up is a [gmap], a Python [set] a
      [gset]; the one dict whose iteration order reaches the output
      ([unhandled]) is an association list kept in insertion order;
    - a Python exception is a value of [exn]; a function that can raise
      returns a [result];
    - the file system is a finite map from paths to the text a read of the
      path returns, and a read returns the text last written. *)

From Stdlib Require Import Ascii.
From stdpp Require Import base option list gmap strings sorting.

Local Open Scope stdpp_scope.

#[local] Set Warnings "-clear-no-such-hyp".

(** ** Exceptions *)

Inductive exn : Type :=
  | TypeError (msg : string)
  | KeyError (key : string)
  | ValueError (msg : string)
  | IndexError (msg : string)
  | SystemExit (msg : string).

Inductive result (A : Type) : Type :=
  | Ok (a : A)
  | Raise (e : exn).
Arguments Ok {A} a.
Arguments Raise {A} e.

Global Instance result_ret : MRet result := fun A a => Ok a.
Global Instance result_bind : MBind result := fun A B f r =>
  match r with
  | Ok a => f a
  | Raise e => Raise e
  end.
Global Instance result_fmap : FMap result := fun A B f r =>
  match r with
  | Ok a => Ok (f a)
  | Raise e => Raise e
  end.

Definition is_Ok {A} (r : result A) : Prop := exists a, r = Ok a.

(** ** Python string primitives *)

Module Py.

Definition char_eqb (a b : ascii) : bool := Ascii.eqb a b.

(** [c in s] for a one-character [c]. *)
Fixpoint contains_char (c : ascii) (s : string) : bool :=
  match s with
  | EmptyString => false
  | String d s' => char_eqb c d || contains_char c s'
  end.

(** [s.startswith(p)]. *)
Fixpoint startswith (p s : string) : bool :=
  match p, s with
  | EmptyString, _ => true
  | String a p', String b s' => char_eqb a b && startswith p' s'
  | String _ _, EmptyString => false
  end.

(** [s.split(c, 1)]: the text before the first [c], and the text after it
    when there is a [c]. *)
Fixpoint split1 (c : ascii) (s : string) : string * option string :=
  match s with
  | EmptyString => (EmptyString, None)
  | String d s' =>
      if char_eqb c d then (EmptyString, Some s')
      else let '(a, b) := split1 c s' in (String d a, b)
  end.

(** [s.split(c)]. *)
Fixpoint split (c : ascii) (s : string) : list string :=
  match s with
  | EmptyString => [EmptyString]
  | String d s' =>
      if char_eqb c d then EmptyString :: split c s'
      else match split c s' with
           | [] => [String d EmptyString]
           | w :: ws => String d w :: ws
           end
  end.

(** [sep.join(l)]. *)
Fixpoint join (sep : string) (l : list string) : string :=
  match l with
  | [] => EmptyString
  | [x] => x
  | x :: l' => x +:+ sep +:+ join sep l'
  end.

(** [s.endswith(c)] for a one-character [c]. *)
Fixpoint endswith_char (c : ascii) (s : string) : bool :=
  match s with
  | EmptyString => false
  | String d EmptyString => char_eqb c d
  | String _ s' => endswith_char c s'
  end.

(** [s[:-1]]. *)
Fixpoint drop_last (s : string) : string :=
  match s with
  | EmptyString => EmptyString
  | String _ EmptyString => EmptyString
  | String d s' => String d (drop_last s')
  end.

(** [s[n:]]. *)
Fixpoint drop (n : nat) (s : string) : string :=
  match n, s with
  | O, _ => s
  | S _, EmptyString => EmptyString
  | S n', String _ s' => drop n' s'
  end.

Definition upper_char (c : ascii) : ascii :=
  let n := nat_of_ascii c in
  if (97 <=? n)%nat && (n <=? 122)%nat then ascii_of_nat (n - 32) else c.

Definition lower_char (c : ascii) : ascii :=
  let n := nat_of_ascii c in
  if (65 <=? n)%nat && (n <=? 90)%nat then ascii_of_nat (n + 32) else c.

Fixpoint lower (s : string) : string :=
  match s with
  | EmptyString => EmptyString
  | String c s' => String (lower_char c) (lower s')
  end.

(** [s.capitalize()]: first character upper-cased, the rest lower-cased. *)
Definition capitalize (s : string) : string :=
  match s with
  | EmptyString => EmptyString
  | String c s' => String (upper_char c) (lower s')
  end.

(** The characters [str.strip()] removes. *)
Definition is_space (c : ascii) : bool :=
  let n := nat_of_ascii c in
  ((9 <=? n)%nat && (n <=? 13)%nat) || ((28 <=? n)%nat && (n <=? 32)%nat).

Fixpoint lstrip (s : string) : string :=
  match s with
  | EmptyString => EmptyString
  | String c s' => if is_space c then lstrip s' else s
  end.

Fixpoint rstrip (s : string) : string :=
  match s with
  | EmptyString => EmptyString
  | String c s' =>
      match rstrip s' with
      | EmptyString => if is_space c then EmptyString else String c EmptyString
      | r => String c r
      end
  end.

Definition strip (s : string) : string := rstrip (lstrip s).

(** The line boundaries of [str.splitlines()]. *)
Definition is_linebreak (c : ascii) : bool :=
  let n := nat_of_ascii c in
  ((10 <=? n)%nat && (n <=? 13)%nat) || ((28 <=? n)%nat && (n <=? 30)%nat).

Fixpoint splitlines_from (cur s : string) : list string :=
  match s with
  | EmptyString =>
      match cur with EmptyString => [] | _ => [cur] end
  | String c s' =>
      if is_linebreak c then
        match s' with
        | String d s'' =>
            if char_eqb c "013"%char && char_eqb d "010"%char
            then cur :: splitlines_from EmptyString s''
            else cur :: splitlines_from EmptyString s'
        | EmptyString => cur :: splitlines_from EmptyString s'
        end
      else splitlines_from (cur +:+ String c EmptyString) s'
  end.

Definition splitlines (s : string) : list string :=
  splitlines_from EmptyString s.

(** [s.replace(old, new)]: every non-overlapping occurrence, left to
    right. [skip] counts the characters of an occurrence already
    replaced. With an empty [old], [new] goes before every character and
    at the end. *)
Fixpoint replace_from (old new : string) (skip : nat) (s : string) : string :=
  match s with
  | EmptyString =>
      match old with EmptyString => new | _ => EmptyString end
  | String c s' =>
      match skip with
      | S k => replace_from old new k s'
      | O =>
          match old with
          | EmptyString => new +:+ String c (replace_from old new O s')
          | String _ old' =>
              if startswith old s
              then new +:+ replace_from old new (String.length old') s'
              else String c (replace_from old new O s')
          end
      end
  end.

Definition replace (old new s : string) : string := replace_from old new O s.

(** [os.path.basename(p)]: the text after the last slash. *)
Fixpoint basename (p : string) : string :=
  match p with
  | EmptyString => EmptyString
  | String c p' =>
      if contains_char "/"%char p' then basename p'
      else if char_eqb c "/"%char then p' else p
  end.

End Py.

(** The double quote and the newline, as one-character strings. *)
Definition dquote : string := String (ascii_of_nat 34) EmptyString.
Definition newline : string := String (ascii_of_nat 10) EmptyString.

(** [replace(template, **kw)]: the substitutions in the order of the
    keyword arguments. *)
Definition replace (template : string) (kw : list (string * string)) : string :=
  foldl (fun t kv => Py.replace kv.1 kv.2 t) template kw.

(** A loop whose body can raise. *)
Fixpoint for_each {S A : Type} (body : S -> A -> result S) (s : S) (l : list A)
  : result S :=
  match l with
  | [] => Ok s
  | x :: l' => s' ← body s x; for_each body s' l'
  end.

(** ** The type mapper *)

Definition json_field_types : gmap string string :=
  list_to_map
    [ ("bool", "bool"); ("str", "escaped_string");
      ("list.str", "[]escaped_string");
      ("dict.str", "map[escaped_string]escaped_string");
      ("float", "float64"); ("int", "int");
      ("scroll_amount", "any"); ("spacing", "any"); ("colors", "any") ].

(** The literal dict indexed on line 186. *)
Definition container_prefixes : gmap string string :=
  list_to_map [ ("list", "[]"); ("dict", "map[string]") ].

Definition unknown_type (json_field_type : string) : exn :=
  TypeError ("Unknown JSON field type: " +:+ json_field_type).

(** One call of [go_field_type], with [self] for the recursive call. *)
Definition go_field_type_body (self : string -> result string)
    (json_field_type : string) : result string :=
  match json_field_types !! json_field_type with
  | Some (String c q) => Ok (String c q)
  | _ =>
      if Py.startswith "choices." json_field_type then Ok "string"
      else if Py.contains_char "."%char json_field_type then
        match Py.split1 "."%char json_field_type with
        | (p, Some r) =>
            match container_prefixes !! p with
            | None => Raise (KeyError p)
            | Some p' => q ← self r; Ok (p' +:+ q)
            end
        | (_, None) =>
            Raise (ValueError "not enough values to unpack (expected 2, got 1)")
        end
      else Raise (unknown_type json_field_type)
  end.

(** The recursion is on the text after the first dot, which is shorter than
    the token; [fuel] bounds the depth and [go_field_type_unfold] shows it
    never runs out. *)
Fixpoint go_field_type_fuel (fuel : nat) (json_field_type : string)
  : result string :=
  match fuel with
  | O => Raise (unknown_type json_field_type)
  | S fuel' => go_field_type_body (go_field_type_fuel fuel') json_field_type
  end.

Definition go_field_type (json_field_type : string) : result string :=
  go_field_type_fuel (S (String.length json_field_type)) json_field_type.

(** ** The JSON field model *)

Record JSONField : Type := {
  field : string;
  field_type : string;
  required : bool;
  struct_field_name : string
}.

(** [JSONField.__init__]. *)
Definition JSONField_init (line : string) : result JSONField :=
  let field_def := (Py.split1 ":"%char line).1 in
  match Py.split1 "/"%char field_def with
  | (_, None) =>
      Raise (ValueError "not enough values to unpack (expected 2, got 1)")
  | (f, Some ty) =>
      let req := Py.endswith_char "+"%char f in
      let f := if req then Py.drop_last f else f in
      match f with
      | EmptyString => Raise (IndexError "string index out of range")
      | String c rest =>
          Ok {| field := f; field_type := ty; required := req;
                struct_field_name := String (Py.upper_char c) rest |}
      end
  end.

Definition json_tag (f : string) : string :=
  "`json:" +:+ dquote +:+ f +:+ ",omitempty" +:+ dquote +:+ "`".

Definition go_declaration (self : JSONField) : result string :=
  ty ← go_field_type (field_type self);
  Ok (struct_field_name self +:+ " " +:+ ty +:+ json_tag (field self)).

(** ** Collaborators

    [GoOption] and the argument specification of a command live in
    [kitty.cli] and [kitty.rc.base]; the generator only calls the members
    listed here, so they are taken as data. *)

Record GoOption : Type := {
  go_var_name : string;
  as_option : string -> string;
  struct_declaration : string
}.

Record ArgsHandling : Type := {
  spec : string;
  as_go_completion_code : string -> list string;
  (** [as_go_code(name, field_types, handled_fields)]: the statements it
      yields and the content of [handled_fields] once it has run. *)
  as_go_code : string -> gmap string string -> gset string ->
               list string * gset string
}.

Record RemoteCommand : Type := {
  protocol_spec : string;
  field_to_option_map : option (gmap string string);
  args : ArgsHandling;
  short_desc : string;
  desc : string;
  is_asynchronous : bool;
  (** [str(cmd.response_timeout)] *)
  response_timeout : string;
  string_return_is_error : bool;
  reads_streaming_data : bool
}.

(** ** Insertion-ordered dicts *)

Section dict.
Context {V : Type}.

Fixpoint dict_set (k : string) (v : V) (d : list (string * V))
  : list (string * V) :=
  match d with
  | [] => [(k, v)]
  | (k', v') :: d' =>
      if decide (k = k') then (k, v) :: d' else (k', v') :: dict_set k v d'
  end.

Definition dict_del (k : string) (d : list (string * V)) : list (string * V) :=
  filter (fun kv => kv.1 <> k) d.

Definition dict_keys (d : list (string * V)) : list string := d.*1.
End dict.

(** ** The command compiler *)

Definition reserved_options : gset string :=
  {[ "NoResponse"; "ResponseTimeout" ]}.

(** What the loop over the lines of the protocol specification builds. *)
Record FieldTable : Type := {
  jd : list string;
  json_fields : list JSONField;
  field_types : gmap string string
}.

Definition empty_field_table : FieldTable :=
  {| jd := []; json_fields := []; field_types := ∅ |}.

(** Body of the loop of lines 223-230. *)
Definition parse_line (t : FieldTable) (line : string) : result FieldTable :=
  let line := Py.strip line in
  if negb (Py.contains_char ":"%char line) then Ok t
  else
    f ← JSONField_init line;
    d ← go_declaration f;
    Ok {| jd := jd t ++ [d];
          json_fields := json_fields t ++ [f];
          field_types := <[field f := field_type f]> (field_types t) |}.

Definition parse_protocol_spec (protocol_spec : string) : result FieldTable :=
  for_each parse_line empty_field_table (Py.splitlines protocol_spec).

(** What the two loops over the fields build. *)
Record BindState : Type := {
  jc : list string;
  used_options : gset string;
  unhandled : list (string * JSONField)
}.

Definition bool_literal (b : bool) : string := if b then "true" else "false".

(** The files of the output tree and the module-level list [changed]. *)
Record World : Type := {
  files : gmap string string;
  changed : list string
}.

Section compiler.
(** [kitty.cli.serialize_as_go_string], the path of the generator
    ([__file__]) and [rc_command_options]. *)
Variable serialize_as_go_string : string -> string.
Variable file__ : string.
Variable rc_command_options : string -> list GoOption.

(** [option_map] after the loop of lines 214-219. *)
Definition option_map_of (opts : list GoOption) : gmap string GoOption :=
  foldl (fun m o => <[go_var_name o := o]> m) ∅ opts.

(** Lines 238-239: the option a field is looked up under. *)
Definition option_name (cmd : RemoteCommand) (f : JSONField) : string :=
  let oq := default (field f) (default ∅ (field_to_option_map cmd) !! field f) in
  Py.join EmptyString (Py.capitalize <$> Py.split "_"%char oq).

Definition plain_binding (name : string) (f : JSONField) (o : GoOption) : string :=
  "payload." +:+ struct_field_name f +:+ " = options_" +:+ name +:+ "."
    +:+ go_var_name o.

Definition call_binding (fn name : string) (f : JSONField) (o : GoOption) : string :=
  "payload." +:+ struct_field_name f +:+ " = " +:+ fn +:+ "(options_"
    +:+ name +:+ "." +:+ go_var_name o +:+ ")".

(** The statement appended on lines 243-250. *)
Definition option_binding (name : string) (f : JSONField) (o : GoOption) : string :=
  if decide (field_type f = "str") then call_binding "escaped_string" name f o
  else if decide (field_type f = "list.str")
  then call_binding "escape_list_of_strings" name f o
  else if decide (field_type f = "dict.str")
  then call_binding "escape_dict_of_strings" name f o
  else plain_binding name f o.

(** The statement appended on lines 260-263. *)
Definition match_binding (name : string) (f : JSONField) (o : GoOption) : string :=
  if decide (field_type f = "str") then call_binding "escaped_string" name f o
  else plain_binding name f o.

(** Body of the loop of lines 237-254. *)
Definition bind_field (name : string) (cmd : RemoteCommand)
    (option_map : gmap string GoOption) (handled_fields : gset string)
    (st : BindState) (f : JSONField) : BindState :=
  let oq := option_name cmd f in
  match option_map !! oq with
  | Some o =>
      {| jc := jc st ++ [option_binding name f o];
         used_options := {[oq]} ∪ used_options st;
         unhandled := unhandled st |}
  | None =>
      if decide (field f ∈ handled_fields) then st
      else {| jc := jc st;
              used_options := used_options st;
              unhandled := dict_set (field f) f (unhandled st) |}
  end.

(** Body of the loop of lines 255-264, at the entry [(x, unhandled[x])]
    of the snapshot [tuple(unhandled)]. *)
Definition bind_match_window (name : string)
    (option_map : gmap string GoOption)
    (st : BindState) (entry : string * JSONField) : BindState :=
  let '(x, f) := entry in
  match option_map !! "Match" with
  | Some o =>
      if decide (x = "match_window" ∧ "Match" ∉ used_options st) then
        {| jc := jc st ++ [match_binding name f o];
           used_options := {["Match"]} ∪ used_options st;
           unhandled := dict_del x (unhandled st) |}
      else st
  | None => st
  end.

(** Lines 235-254. *)
Definition bind_fields (name : string) (cmd : RemoteCommand)
    (option_map : gmap string GoOption) (handled_fields : gset string)
    (jc0 : list string) (fields : list JSONField) : BindState :=
  foldl (bind_field name cmd option_map handled_fields)
    {| jc := jc0; used_options := ∅; unhandled := [] |} fields.

(** Lines 255-264. *)
Definition bind_exceptions (name : string)
    (option_map : gmap string GoOption) (st : BindState) : BindState :=
  foldl (bind_match_window name option_map) st (unhandled st).

(** [set(option_map) - used_options - {...}]. A Python set has no
    specified iteration order; the message lists [elements] of the set. *)
Definition unused_options (option_map : gmap string GoOption)
    (used : gset string) : gset string :=
  dom option_map ∖ used ∖ reserved_options.

Definition cant_map_fields (name : string) (fields : list string) : string :=
  "Cant map fields: " +:+ Py.join ", " fields +:+ " for cmd: " +:+ name.

Definition unused_options_message (name : string) (opts : list string) : string :=
  "Unused options: " +:+ Py.join ", " opts +:+ " for command: " +:+ name.

(** Lines 231-264: the statements of the argument handler, then the two
    loops over the fields. *)
Definition resolve_fields (name : string) (cmd : RemoteCommand)
    (t : FieldTable) : BindState :=
  let option_map := option_map_of (rc_command_options name) in
  let '(args_code, handled_fields) :=
    as_go_code (args cmd) name (field_types t) ∅ in
  bind_exceptions name option_map
    (bind_fields name cmd option_map handled_fields args_code (json_fields t)).

Definition go_code_for_remote_command (name : string) (cmd : RemoteCommand)
    (template : string) : result string :=
  let template :=
    newline +:+ Py.drop (String.length "//go:build exclude") template in
  let NO_RESPONSE_BASE := "false" in
  let opts := rc_command_options name in
  let af := as_go_completion_code (args cmd) "ans"
            ++ ((fun o => as_option o "ans") <$> opts) in
  let od := struct_declaration
            <$> filter (fun o => go_var_name o ∉ reserved_options) opts in
  let option_map := option_map_of opts in
  t ← parse_protocol_spec (protocol_spec cmd);
  let st := resolve_fields name cmd t in
  match unhandled st with
  | _ :: _ => Raise (SystemExit (cant_map_fields name (dict_keys (unhandled st))))
  | [] =>
      let unused := unused_options option_map (used_options st) in
      if decide (name <> "send_text" ∧ unused <> ∅) then
        Raise (SystemExit (unused_options_message name (elements unused)))
      else
        let argspec := spec (args cmd) in
        let argspec :=
          match argspec with
          | EmptyString => argspec
          | _ => " " +:+ argspec
          end in
        Ok (replace template
              [ ("CMD_NAME", name); ("__FILE__", file__);
                ("CLI_NAME", Py.replace "_" "-" name);
                ("SHORT_DESC", serialize_as_go_string (short_desc cmd));
                ("LONG_DESC", serialize_as_go_string (Py.strip (desc cmd)));
                ("IS_ASYNC", bool_literal (is_asynchronous cmd));
                ("NO_RESPONSE_BASE", NO_RESPONSE_BASE);
                ("ADD_FLAGS_CODE", Py.join newline af);
                ("WAIT_TIMEOUT", response_timeout cmd);
                ("OPTIONS_DECLARATION_CODE", Py.join newline od);
                ("JSON_DECLARATION_CODE", Py.join newline (jd t));
                ("JSON_INIT_CODE", Py.join newline (jc st));
                ("ARGSPEC", argspec);
                ("STRING_RESPONSE_IS_ERROR",
                 bool_literal (string_return_is_error cmd));
                ("STREAM_WANTED", bool_literal (reads_streaming_data cmd)) ])
  end.

(** ** The writer *)

Definition banner : string :=
  "// Code generated by " +:+ Py.basename file__ +:+ "; DO NOT EDIT."
    +:+ newline +:+ newline.

(** [replace_if_needed(path, show_diff)] around a body that leaves
    [output] in the buffer. With [show_diff] the new text also goes
    through [path + '.new'], which is removed again. *)
Definition replace_if_needed (path : string) (show_diff : bool)
    (output : string) (w : World) : World :=
  let orig := default EmptyString (files w !! path) in
  let new := banner +:+ output in
  if decide (orig <> new) then
    let fs := files w in
    let fs := if show_diff then delete (path +:+ ".new") (<[path +:+ ".new" := new]> fs)
              else fs in
    {| files := <[path := new]> fs; changed := changed w ++ [path] |}
  else w.

(** Body of the loop of lines 447-452, for a command [cmd] that
    [command_for_name(name)] returned. *)
Definition update_at_command (template : string) (w : World)
    (entry : string * RemoteCommand) : result World :=
  let '(name, cmd) := entry in
  code ← go_code_for_remote_command name cmd template;
  let dest := "tools/cmd/at/cmd_" +:+ name +:+ "_generated.go" in
  Ok (replace_if_needed dest false code w).

End compiler.

(** * The rest of the generator *)

(** What the functions below raise: an exception of the compiler, a file
    that is not there, or the bare [Exception] of [wrapped_kittens]. *)
Inductive failure : Type :=
  | Raised (e : exn)
  | FileNotFoundError (path : string)
  | Exception (msg : string).

Inductive outcome (A : Type) : Type :=
  | Returned (a : A)
  | Failed (e : failure).
Arguments Returned {A} a.
Arguments Failed {A} e.

Module PyText.

(** [s.split()]: the maximal runs of characters that are not white
    space. *)
Fixpoint split_ws_from (cur s : string) : list string :=
  match s with
  | EmptyString =>
      match cur with EmptyString => [] | _ => [cur] end
  | String c s' =>
      if Py.is_space c then
        match cur with
        | EmptyString => split_ws_from EmptyString s'
        | _ => cur :: split_ws_from EmptyString s'
        end
      else split_ws_from (cur +:+ String c EmptyString) s'
  end.

Definition split_ws (s : string) : list string := split_ws_from EmptyString s.

(** [s.partition(c)[2]]: the text after the first [c], empty without
    one. *)
Definition after_first (c : ascii) (s : string) : string :=
  match Py.split1 c s with
  | (_, Some b) => b
  | (_, None) => EmptyString
  end.

(** [for line in f]: the lines of a text, each with its newline. *)
Fixpoint file_lines_from (cur s : string) : list string :=
  match s with
  | EmptyString =>
      match cur with EmptyString => [] | _ => [cur] end
  | String c s' =>
      if Py.char_eqb c "010"%char
      then (cur +:+ String c EmptyString) :: file_lines_from EmptyString s'
      else file_lines_from (cur +:+ String c EmptyString) s'
  end.

Definition file_lines (s : string) : list string :=
  file_lines_from EmptyString s.

(** [sorted(l)] on strings: ascending by code points. *)
Definition sorted (l : list string) : list string := merge_sort String.le l.

End PyText.

(** ** Wrapped kittens (lines 295-302) *)

Definition wrapper_script : string := "shell-integration/ssh/kitty".

Definition wrapped_kittens_marker : string := "    wrapped_kittens=" +:+ dquote.

(** The loop over the lines of the wrapper script. *)
Fixpoint wrapped_kittens_of (lines : list string) : outcome (list string) :=
  match lines with
  | [] =>
      Failed (Exception "Failed to read wrapped kittens from kitty wrapper script")
  | line :: rest =>
      if Py.startswith wrapped_kittens_marker line then
        let val :=
          Py.drop_last (PyText.after_first (ascii_of_nat 34) (Py.strip line)) in
        Returned
          (PyText.sorted
             (filter (fun x => x <> EmptyString) (PyText.split_ws val)))
      else wrapped_kittens_of rest
  end.

Definition wrapped_kittens (fs : gmap string string) : outcome (list string) :=
  match fs !! wrapper_script with
  | None => Failed (FileNotFoundError wrapper_script)
  | Some text => wrapped_kittens_of (PyText.file_lines text)
  end.

(** ** Enumerations (lines 488-503) *)

(** Body of the loop over [enumerate(actions)]. *)
Definition define_enum_step (type_name : string)
    (st : list string * list string) (entry : nat * string)
  : list string * list string :=
  let '(ans, stringer) := st in
  let '(i, ac) := entry in
  let stringer :=
    stringer ++ ["case " +:+ ac +:+ ": return " +:+ dquote +:+ ac +:+ dquote] in
  let ac :=
    if decide (i = 0) then ac +:+ " " +:+ type_name +:+ " = iota" else ac in
  (ans ++ [ac], stringer).

Definition define_enum (package_name type_name items underlying_type : string)
  : string :=
  let actions :=
    filter (fun x => x <> EmptyString) (Py.strip <$> Py.splitlines items) in
  let ans :=
    [ "package " +:+ package_name;
      "import " +:+ dquote +:+ "strconv" +:+ dquote;
      "type " +:+ type_name +:+ " " +:+ underlying_type;
      "const (" ] in
  let stringer :=
    [ "func (ac " +:+ type_name +:+ ") String() string " +:+ "{";
      "switch(ac) {" ] in
  let '(ans, stringer) :=
    foldl (define_enum_step type_name) (ans, stringer)
      (zip (seq 0 (length actions)) actions) in
  let ans := ans ++ [")"] in
  let stringer :=
    stringer ++ ["}" +:+ newline +:+ "return strconv.Itoa(int(ac)) }"] in
  Py.join newline (ans ++ stringer).

(** ** The remote-command files (lines 444-473) *)

Definition template_path : string := "tools/cmd/at/template.go".

Definition global_opts_path : string := "tools/cmd/at/global_opts_generated.go".

Section update.
(** The collaborators of the compiler, the names and commands of
    [kitty.rc.base], and the global options with the text of
    [o.as_option(depth=1, group=...)]. *)
Variable serialize_as_go_string : string -> string.
Variable file__ : string.
Variable rc_command_options : string -> list GoOption.
Variable all_command_names : list string.
Variable command_for_name : string -> RemoteCommand.
Variable global_options : list GoOption.
Variable as_global_option : GoOption -> string.

(** The loop of lines 447-452: the world when it ends, and the exception
    that ended it, if any. *)
Fixpoint update_at_commands_loop (template : string) (names : list string)
    (w : World) : World * option exn :=
  match names with
  | [] => (w, None)
  | name :: rest =>
      match update_at_command serialize_as_go_string file__ rc_command_options
              template w (name, command_for_name name) with
      | Ok w' => update_at_commands_loop template rest w'
      | Raise e => (w, Some e)
      end
  end.

(** The text of lines 460-471. *)
Definition global_opts_code : string :=
  let sdef := Py.join newline (struct_declaration <$> global_options) in
  let odef := Py.join newline (as_global_option <$> global_options) in
  newline +:+ "package at" +:+ newline +:+
  "import " +:+ dquote +:+ "kitty/tools/cli" +:+ dquote +:+ newline +:+
  "type rc_global_options struct {" +:+ newline +:+
  sdef +:+ newline +:+
  "}" +:+ newline +:+
  "var rc_global_opts rc_global_options" +:+ newline +:+
  newline +:+
  "func add_rc_global_opts(cmd *cli.Command) {" +:+ newline +:+
  odef +:+ newline +:+
  "}" +:+ newline.

Definition update_at_commands (w : World) : World * option failure :=
  match files w !! template_path with
  | None => (w, Some (FileNotFoundError template_path))
  | Some template =>
      match update_at_commands_loop template all_command_names w with
      | (w', Some e) => (w', Some (Raised e))
      | (w', None) =>
          (replace_if_needed file__ global_opts_path false global_opts_code w',
           None)
      end
  end.

End update.

(** * Vocabulary of the properties *)

(** [x in msg]: the message names [x]. *)
Definition occurs_in (x msg : string) : Prop :=
  exists pre post, msg = pre +:+ x +:+ post.

Fixpoint occurs_inb (x msg : string) : bool :=
  Py.startswith x msg ||
  match msg with
  | EmptyString => false
  | String _ msg' => occurs_inb x msg'
  end.


(** The three exclusions of the fourth rule of the mapper. *)
Definition in_exact_table (t : string) : Prop := is_Some (json_field_types !! t).

Definition choices_token (t : string) : Prop := Py.startswith "choices." t = true.


(** The field name of a name part: its trailing [+] removed. *)
Definition strip_marker (name_part : string) : string :=
  if Py.endswith_char "+" name_part then Py.drop_last name_part else name_part.






(** The statement the first loop appends for a field, if any. *)
Definition binding_of (name : string) (cmd : RemoteCommand)
    (option_map : gmap string GoOption) (f : JSONField) : option string :=
  option_binding name f <$> option_map !! option_name cmd f.

(** * Worked commands *)

(** A block of three lines: two fields and a line without a colon. *)
Definition sample_protocol_spec : string :=
  "match_window/str: Window to change" +:+ newline +:+
  "  foo_bar+/list.str: Some values" +:+ newline +:+
  "a separator line" +:+ newline.

Definition sample_option (n : string) : GoOption :=
  {| go_var_name := n;
     as_option := fun cmd_name => cmd_name +:+ ".Add(" +:+ n +:+ ")";
     struct_declaration := n +:+ " string" |}.

Definition no_args : ArgsHandling :=
  {| spec := EmptyString;
     as_go_completion_code := fun _ => [];
     as_go_code := fun _ _ handled_fields => ([], handled_fields) |}.

Definition sample_command (protocol_spec : string) : RemoteCommand :=
  {| protocol_spec := protocol_spec;
     field_to_option_map := None;
     args := no_args;
     short_desc := "Short";
     desc := " Long ";
     is_asynchronous := false;
     response_timeout := "10.0";
     string_return_is_error := false;
     reads_streaming_data := false |}.

Definition sample_template : string :=
  "//go:build exclude" +:+ newline +:+
  "package at // CMD_NAME CLI_NAME" +:+ newline +:+ "JSON_INIT_CODE".

(** The table parsed from [sample_protocol_spec]. *)
Definition sample_table : FieldTable :=
  Eval vm_compute in
    match parse_protocol_spec sample_protocol_spec with
    | Ok t => t
    | Raise _ => empty_field_table
    end.

Definition match_window_field : JSONField :=
  {| field := "match_window"; field_type := "str"; required := false;
     struct_field_name := "Match_window" |}.

Definition foo_bar_field : JSONField :=
  {| field := "foo_bar"; field_type := "list.str"; required := true;
     struct_field_name := "Foo_bar" |}.

(** Options of three commands: one without [Match], one with an option no
    field uses, one whose only option matches no field. *)
Definition sample_options (name : string) : list GoOption :=
  if decide (name = "set_x") then
    [sample_option "FooBar"; sample_option "NoResponse"]
  else if decide (name = "get_x") then
    [sample_option "FooBar"; sample_option "Match"; sample_option "Zed";
     sample_option "NoResponse"]
  else [sample_option "Foo"].

(** The grammar of the type tokens the mapper resolves, with the Go type
    of each. *)
Inductive resolves_to : string -> string -> Prop :=
  | resolves_exact t q :
      json_field_types !! t = Some q -> resolves_to t q
  | resolves_choices t :
      json_field_types !! t = None -> Py.startswith "choices." t = true ->
      resolves_to t "string"
  | resolves_list r q :
      json_field_types !! ("list." +:+ r) = None ->
      resolves_to r q -> resolves_to ("list." +:+ r) ("[]" +:+ q)
  | resolves_dict r q :
      json_field_types !! ("dict." +:+ r) = None ->
      resolves_to r q -> resolves_to ("dict." +:+ r) ("map[string]" +:+ q).

(** A run of writes through the writer, without diffs. *)
Definition write_all (file__ : string) (l : list (string * string)) (w : World)
  : World :=
  foldl (fun w po => replace_if_needed file__ po.1 false po.2 w) w l.

(** The file of a command, as line 450 names it. *)
Definition at_command_path (name : string) : string :=
  "tools/cmd/at/cmd_" +:+ name +:+ "_generated.go".

(** Whether a string holds a white-space character. *)
Fixpoint has_space (s : string) : bool :=
  match s with
  | EmptyString => false
  | String c s' => Py.is_space c || has_space s'
  end.

(** ** More worked data *)

(** Options that match the fields of [sample_protocol_spec] one for one. *)
Definition exact_options (name : string) : list GoOption :=
  [sample_option "MatchWindow"; sample_option "FooBar";
   sample_option "NoResponse"].

(** A block whose second field has a type the mapper does not know. *)
Definition broken_protocol_spec : string :=
  "first/str: A field" +:+ newline +:+
  "second/colour: Another" +:+ newline +:+
  "third/int: Never reached" +:+ newline.

(** A wrapper script with the line of the wrapped kittens. *)
Definition sample_wrapper_script : string :=
  "#!/bin/sh" +:+ newline +:+
  "    wrapped_kittens=" +:+ dquote +:+ "ssh  clipboard icat" +:+ dquote
    +:+ newline +:+
  "exec kitty" +:+ newline.

(** Two commands, the second of which leaves its field unresolved, and a
    tree that holds the template only. *)
Definition sample_command_for_name (name : string) : RemoteCommand :=
  if decide (name = "ls") then sample_command EmptyString
  else sample_command "bar/str: A field".

Definition sample_rc_options (name : string) : list GoOption :=
  if decide (name = "ls") then [] else [sample_option "Foo"].

Definition sample_world : World :=
  {| files := {[ template_path := sample_template ]}; changed := [] |}.

(** * Properties *)

(** Decidable side conditions on concrete data are settled by evaluation. *)
Ltac by_evaluation := refine (bool_decide_unpack _ _); vm_compute; exact I.

(** ** Strings *)

Local Arguments String.append : simpl nomatch.

Module PyFacts.

Lemma app_nil_r (s : string) : s +:+ EmptyString = s.
Proof. induction s as [|c s IH]; simpl; [done | by rewrite IH]. Qed.

Lemma app_assoc (a b c : string) : (a +:+ b) +:+ c = a +:+ (b +:+ c).
Proof. induction a as [|d a IH]; simpl; [done | by rewrite IH]. Qed.

Lemma length_app (a b : string) :
  String.length (a +:+ b) = String.length a + String.length b.
Proof. induction a as [|d a IH]; simpl; [done | by rewrite IH]. Qed.

Lemma char_eqb_true (a b : ascii) : Py.char_eqb a b = true <-> a = b.
Proof. apply Ascii.eqb_eq. Qed.

Lemma char_eqb_refl (a : ascii) : Py.char_eqb a a = true.
Proof. by apply char_eqb_true. Qed.

Lemma contains_char_app (c : ascii) (a b : string) :
  Py.contains_char c (a +:+ b) = Py.contains_char c a || Py.contains_char c b.
Proof.
  induction a as [|d a IH]; simpl; [done |].
  by rewrite IH, orb_assoc.
Qed.

(** [split1] cuts at the first separator. *)
Lemma split1_Some (c : ascii) (s a b : string) :
  Py.split1 c s = (a, Some b) ->
  s = a +:+ String c b /\ Py.contains_char c a = false.
Proof.
  revert a. induction s as [|d s IH]; intros a; simpl; [done |].
  destruct (Py.char_eqb c d) eqn:E.
  - intros [= <- <-]. apply char_eqb_true in E as ->. done.
  - destruct (Py.split1 c s) as [a' b'] eqn:Es. intros [= <- ->].
    destruct (IH a' eq_refl) as [-> Hn]. simpl. by rewrite E, Hn.
Qed.

Lemma split1_None (c : ascii) (s a : string) :
  Py.split1 c s = (a, None) -> a = s /\ Py.contains_char c s = false.
Proof.
  revert a. induction s as [|d s IH]; intros a; simpl; [by intros [= <-] |].
  destruct (Py.char_eqb c d) eqn:E; [done |].
  destruct (Py.split1 c s) as [a' b'] eqn:Es. intros [= <- ->].
  destruct (IH a' eq_refl) as [-> Hn]. done.
Qed.


Lemma split1_absent (c : ascii) (s : string) :
  Py.contains_char c s = false -> Py.split1 c s = (s, None).
Proof.
  induction s as [|d s IH]; simpl; [done |].
  intros [Hd Hs]%orb_false_elim. by rewrite Hd, (IH Hs).
Qed.


Lemma split1_fst_absent (c : ascii) (s : string) :
  Py.contains_char c (Py.split1 c s).1 = false.
Proof.
  destruct (Py.split1 c s) as [a [b|]] eqn:E; simpl.
  - by apply split1_Some in E as [_ ?].
  - by apply split1_None in E as [-> ?].
Qed.



(** [s.startswith(p)] holds exactly when [s] is [p] followed by something. *)
Lemma startswith_true (p s : string) :
  Py.startswith p s = true <-> exists post, s = p +:+ post.
Proof.
  revert s. induction p as [|a p IH]; intros s; simpl.
  - split; [by exists s | done].
  - destruct s as [|b s]; [split; [done | by intros [? ?]] |].
    rewrite andb_true_iff, char_eqb_true, IH. split.
    + intros [-> [post ->]]. by exists post.
    + intros [post [= -> ->]]. eauto.
Qed.

End PyFacts.

Lemma occurs_inb_true (x msg : string) :
  occurs_inb x msg = true <-> occurs_in x msg.
Proof.
  induction msg as [|c msg IH].
  - simpl. rewrite orb_false_r, PyFacts.startswith_true. split.
    + intros [post ->]. by exists EmptyString, post.
    + intros [[|??] [post E]]; [by exists post | done].
  - cbn [occurs_inb]. rewrite orb_true_iff, IH, PyFacts.startswith_true. split.
    + intros [[post ->] | [pre [post ->]]].
      * by exists EmptyString, post.
      * by exists (String c pre), post.
    + intros [[|d pre] [post E]]; [left; by exists post |].
      right. injection E as -> ->. by exists pre, post.
Qed.





(** ** The type mapper *)

Lemma go_field_type_fuel_irrel (n m : nat) (t : string) :
  String.length t < n -> String.length t < m ->
  go_field_type_fuel n t = go_field_type_fuel m t.
Proof.
  revert m t. induction n as [|n IH]; intros m t Hn Hm; [lia |].
  destruct m as [|m]; [lia |]. simpl. unfold go_field_type_body.
  destruct (json_field_types !! t) as [[|c q]|]; try done;
    destruct (Py.startswith "choices." t); try done;
    destruct (Py.contains_char "." t); try done;
    destruct (Py.split1 "." t) as [p [r|]] eqn:Es; try done;
    destruct (container_prefixes !! p); try done;
    apply PyFacts.split1_Some in Es as [-> _];
    rewrite PyFacts.length_app in Hn, Hm; simpl in Hn, Hm;
    rewrite (IH m r) by lia; done.
Qed.

(** [go_field_type] satisfies the recursion of the source. *)
Lemma go_field_type_unfold (t : string) :
  go_field_type t = go_field_type_body go_field_type t.
Proof.
  unfold go_field_type at 1. simpl. unfold go_field_type_body.
  destruct (json_field_types !! t) as [[|c q]|]; try done;
    destruct (Py.startswith "choices." t); try done;
    destruct (Py.contains_char "." t); try done;
    destruct (Py.split1 "." t) as [p [r|]] eqn:Es; try done;
    destruct (container_prefixes !! p); try done;
    apply PyFacts.split1_Some in Es as [-> _];
    unfold go_field_type;
    rewrite (go_field_type_fuel_irrel _ (S (String.length r)) r);
    rewrite ?PyFacts.length_app; simpl; done || lia.
Qed.


Lemma container_prefixes_list : container_prefixes !! "list" = Some "[]".
Proof. done. Qed.

Lemma container_prefixes_dict : container_prefixes !! "dict" = Some "map[string]".
Proof. done. Qed.

(** No key of the exact-match table starts with [choices.], and no value is
    empty. *)
Lemma json_field_types_Some (t v : string) :
  json_field_types !! t = Some v ->
  Py.startswith "choices." t = false /\ v <> EmptyString.
Proof.
  unfold json_field_types. intros H%elem_of_list_to_map_2.
  repeat (apply elem_of_cons in H as [[= -> ->] | H]; [done |]).
  by apply elem_of_nil in H.
Qed.






(** C5 (as amended). A dotted token outside the exact-match table that does
    not start with [choices.] is split at its first dot; the prefix [list]
    gives the sequence wrapper and [dict] the mapping-from-string wrapper
    around the type of the remainder, which is resolved by the mapper
    itself, exact-match table included. So [list.dict.str] resolves to
    a sequence of the table's entry for [dict.str], and every token that
    starts with [choices.] resolves to [string]. *)
Theorem go_field_type_containers :
  (forall t p r,
     ~ in_exact_table t -> ~ choices_token t ->
     Py.split1 "." t = (p, Some r) ->
     (p = "list" ->
      go_field_type t = (fun q => "[]" +:+ q) <$> go_field_type r) /\
     (p = "dict" ->
      go_field_type t = (fun q => "map[string]" +:+ q) <$> go_field_type r)) /\
  go_field_type "list.dict.str" = Ok "[]map[escaped_string]escaped_string" /\
  (forall t, choices_token t -> go_field_type t = Ok "string").
Proof.
  split; [| split; [done |]].
  - intros t p r Hx Hc Hs.
    assert (go_field_type t =
            match container_prefixes !! p with
            | None => Raise (KeyError p)
            | Some p' => q ← go_field_type r; Ok (p' +:+ q)
            end) as Hu.
    { rewrite go_field_type_unfold at 1. unfold go_field_type_body.
      destruct (json_field_types !! t) as [v|] eqn:Et.
      { destruct Hx. by exists v. }
      destruct (Py.startswith "choices." t) eqn:Ec; [by destruct Hc |].
      rewrite Hs. destruct (PyFacts.split1_Some _ _ _ _ Hs) as [-> _].
      rewrite PyFacts.contains_char_app.
      cbn [Py.contains_char]. rewrite PyFacts.char_eqb_refl.
      cbn [orb]. by rewrite orb_true_r. }
    split; intros ->; rewrite Hu.
    + rewrite container_prefixes_list. by destruct (go_field_type r).
    + rewrite container_prefixes_dict. by destruct (go_field_type r).
  - intros t Hc. rewrite go_field_type_unfold. unfold go_field_type_body.
    destruct (json_field_types !! t) as [v|] eqn:Et.
    + apply json_field_types_Some in Et as [Et _].
      unfold choices_token in Hc. congruence.
    + by rewrite Hc.
Qed.

Lemma go_field_type_containers_witness :
  go_field_type "list.list.int"
  = (fun q => "[]" +:+ q) <$> go_field_type "list.int" /\
  go_field_type "dict.choices.a.b"
  = (fun q => "map[string]" +:+ q) <$> go_field_type "choices.a.b".
Proof.
  split.
  - apply (proj1 go_field_type_containers "list.list.int" "list" "list.int").
    + intros [v Hv]. vm_compute in Hv. discriminate.
    + intros H. vm_compute in H. discriminate.
    + reflexivity.
    + reflexivity.
  - apply (proj1 go_field_type_containers
             "dict.choices.a.b" "dict" "choices.a.b").
    + intros [v Hv]. vm_compute in Hv. discriminate.
    + intros H. vm_compute in H. discriminate.
    + reflexivity.
    + reflexivity.
Defined.

Example go_field_type_examples :
  go_field_type "list.list.int" = Ok "[][]int" /\
  go_field_type "dict.choices.a.b" = Ok "map[string]string" /\
  go_field_type "dict.str" = Ok "map[escaped_string]escaped_string" /\
  go_field_type "list.foo" = Raise (unknown_type "foo") /\
  go_field_type "colour" = Raise (unknown_type "colour").
Proof. repeat split. Qed.

(** C5 (as stated) fails at [list.dict.str]: the remainder [dict.str] is in
    the exact-match table, so the result is a sequence of maps of escaped
    strings, not of plain strings. *)
Lemma go_field_type_list_dict_str :
  go_field_type "list.dict.str" = Ok "[]map[escaped_string]escaped_string" /\
  go_field_type "list.dict.str" <> Ok "[]map[string]string".
Proof. split; [done |]. intros H. vm_compute in H. discriminate. Qed.

(** ** The JSON field model *)







(** The declaration of the example field, computed. *)
Example go_declaration_cursor :
  (f ← JSONField_init "cursor+/str: description"; go_declaration f) =
  Ok ("Cursor escaped_string" +:+ json_tag "cursor").
Proof. reflexivity. Qed.

(** ** Parsing a field-specification block *)

Lemma parse_line_skip (t : FieldTable) (line : string) :
  Py.contains_char ":" (Py.strip line) = false -> parse_line t line = Ok t.
Proof. intros H. unfold parse_line. by rewrite H. Qed.

Lemma parse_line_field (t : FieldTable) (line : string) (f : JSONField) (d : string) :
  Py.contains_char ":" (Py.strip line) = true ->
  JSONField_init (Py.strip line) = Ok f -> go_declaration f = Ok d ->
  parse_line t line =
  Ok {| jd := jd t ++ [d]; json_fields := json_fields t ++ [f];
        field_types := <[field f := field_type f]> (field_types t) |}.
Proof.
  intros H Hf Hd. unfold parse_line. rewrite H, Hf.
  cbn [negb mbind result_bind]. by rewrite Hd.
Qed.

Lemma parse_lines (lines : list string) (t : FieldTable) :
  Forall (fun l => exists f d, JSONField_init l = Ok f /\ go_declaration f = Ok d)
    (filter (fun l => Is_true (Py.contains_char ":" l)) (Py.strip <$> lines)) ->
  exists t' fs ds,
    for_each parse_line t lines = Ok t' /\
    json_fields t' = json_fields t ++ fs /\ jd t' = jd t ++ ds /\
    Forall2 (fun l f => JSONField_init l = Ok f)
      (filter (fun l => Is_true (Py.contains_char ":" l)) (Py.strip <$> lines)) fs /\
    Forall2 (fun f d => go_declaration f = Ok d) fs ds.
Proof.
  revert t. induction lines as [|line lines IH]; intros t Hwf.
  - exists t, [], []. by rewrite !app_nil_r.
  - rewrite fmap_cons in *. cbn [for_each].
    destruct (Py.contains_char ":" (Py.strip line)) eqn:Ec.
    + rewrite filter_cons_True in * by by rewrite Ec.
      apply Forall_cons in Hwf as [(f & d & Hf & Hd) Hwf].
      rewrite (parse_line_field t line f d) by done.
      cbn [mbind result_bind].
      match goal with |- context [for_each parse_line ?t1 lines] =>
        destruct (IH t1 Hwf) as (t' & fs & ds & Ht & Hfs & Hds & H1 & H2)
      end.
      exists t', (f :: fs), (d :: ds). cbn [jd json_fields] in Hfs, Hds.
      split; [done |]. split; [by rewrite Hfs, <- app_assoc |].
      split; [by rewrite Hds, <- app_assoc |]. split; by constructor.
    + assert (~ Is_true (Py.contains_char ":" (Py.strip line))) as Hn
        by (rewrite Ec; exact id).
      rewrite filter_cons_False in Hwf by exact Hn.
      rewrite filter_cons_False by exact Hn.
      rewrite parse_line_skip by done. cbn [mbind result_bind]. by apply IH.
Qed.



Example parse_protocol_spec_sample :
  json_fields <$> parse_protocol_spec sample_protocol_spec =
  Ok [ {| field := "match_window"; field_type := "str"; required := false;
          struct_field_name := "Match_window" |};
       {| field := "foo_bar"; field_type := "list.str"; required := true;
          struct_field_name := "Foo_bar" |} ].
Proof. reflexivity. Qed.

(** ** Insertion-ordered dicts *)

Section dict_facts.
Context {V : Type}.
Implicit Types (d : list (string * V)) (k : string) (v : V).

Lemma elem_of_dict_keys_set k k' v d :
  k ∈ dict_keys (dict_set k' v d) <-> k = k' \/ k ∈ dict_keys d.
Proof.
  unfold dict_keys. induction d as [|[k0 v0] d IH]; simpl.
  - rewrite list_elem_of_singleton. set_solver.
  - case_decide as E; simpl.
    + subst k0. set_solver.
    + rewrite !elem_of_cons, IH. naive_solver.
Qed.

Lemma dict_keys_set_NoDup k v d :
  NoDup (dict_keys d) -> NoDup (dict_keys (dict_set k v d)).
Proof.
  unfold dict_keys. induction d as [|[k0 v0] d IH]; simpl.
  - intros _. apply NoDup_singleton.
  - intros [Hk0 Hd]%NoDup_cons. case_decide as E; simpl.
    + subst k0. by apply NoDup_cons.
    + apply NoDup_cons. split; [| by apply IH].
      intros [? | ?]%elem_of_dict_keys_set; [congruence | done].
Qed.

Lemma elem_of_dict_keys_del k k' d :
  k ∈ dict_keys (dict_del k' d) <-> k <> k' /\ k ∈ dict_keys d.
Proof.
  unfold dict_keys, dict_del. rewrite !list_elem_of_fmap. split.
  - intros ([k0 v0] & -> & [Hne Hin]%list_elem_of_filter).
    split; [done |]. by exists (k0, v0).
  - intros [Hne ([k0 v0] & -> & Hin)]. exists (k0, v0).
    split; [done |]. by apply list_elem_of_filter.
Qed.

Lemma elem_of_dict_keys k d : k ∈ dict_keys d <-> exists v, (k, v) ∈ d.
Proof.
  unfold dict_keys. rewrite list_elem_of_fmap. split.
  - intros ([k0 v0] & -> & Hin). by exists v0.
  - intros [v Hin]. by exists (k, v).
Qed.
End dict_facts.

(** ** Binding fields to options *)

Section binding.
Variables (name : string) (cmd : RemoteCommand).
Variables (option_map : gmap string GoOption) (handled_fields : gset string).

Local Abbreviation step := (bind_field name cmd option_map handled_fields).

Lemma foldl_bind_field_jc (fs : list JSONField) (st : BindState) :
  jc (foldl step st fs) = jc st ++ omap (binding_of name cmd option_map) fs.
Proof.
  revert st. induction fs as [|f fs IH]; intros st; simpl.
  - by rewrite app_nil_r.
  - rewrite IH. unfold bind_field, binding_of.
    destruct (option_map !! option_name cmd f) as [o|]; simpl.
    + by rewrite <- app_assoc.
    + by case_decide.
Qed.

Lemma foldl_bind_field_used (fs : list JSONField) (st : BindState) (x : string) :
  x ∈ used_options (foldl step st fs) <->
  x ∈ used_options st \/
  exists f, f ∈ fs /\ option_name cmd f = x /\ is_Some (option_map !! x).
Proof.
  revert st. induction fs as [|f fs IH]; intros st; simpl.
  - split; [by left |]. intros [? | (f & ?%elem_of_nil & _)]; done.
  - rewrite IH. unfold bind_field.
    destruct (option_map !! option_name cmd f) as [o|] eqn:Eo; simpl.
    + rewrite elem_of_union, elem_of_singleton. split.
      * intros [[-> | ?] | (f' & ? & ? & ?)]; [right | by left | right].
        -- exists f. rewrite Eo. split; [left | done].
        -- exists f'. split; [by right | done].
      * intros [? | (f' & [-> | ?]%elem_of_cons & <- & ?)]; [tauto | tauto |].
        right. by exists f'.
    + assert (used_options (if decide (field f ∈ handled_fields) then st
                else {| jc := jc st; used_options := used_options st;
                        unhandled := dict_set (field f) f (unhandled st) |})
              = used_options st) as -> by by case_decide.
      split.
      * intros [? | (f' & ? & ? & ?)]; [by left | right].
        exists f'. split; [by right | done].
      * intros [? | (f' & [-> | ?]%elem_of_cons & <- & Hs)]; [by left | |].
        -- rewrite Eo in Hs. by destruct Hs.
        -- right. by exists f'.
Qed.

Lemma foldl_bind_field_unhandled (fs : list JSONField) (st : BindState)
    (x : string) :
  x ∈ dict_keys (unhandled (foldl step st fs)) <->
  x ∈ dict_keys (unhandled st) \/
  exists f, f ∈ fs /\ field f = x /\
            option_map !! option_name cmd f = None /\ x ∉ handled_fields.
Proof.
  revert st. induction fs as [|f fs IH]; intros st; simpl.
  - split; [by left |]. intros [? | (f & ?%elem_of_nil & _)]; done.
  - rewrite IH. unfold bind_field.
    destruct (option_map !! option_name cmd f) as [o|] eqn:Eo; simpl.
    + split.
      * intros [? | (f' & ? & ? & ?)]; [by left | right].
        exists f'. split; [by right | done].
      * intros [? | (f' & [-> | ?]%elem_of_cons & <- & Hn & ?)];
          [by left | congruence |].
        right. by exists f'.
    + case_decide as Eh; simpl.
      * split.
        -- intros [? | (f' & ? & ? & ?)]; [by left | right].
           exists f'. split; [by right | done].
        -- intros [? | (f' & [-> | ?]%elem_of_cons & <- & Hn & ?)];
             [by left | done |].
           right. by exists f'.
      * rewrite elem_of_dict_keys_set. split.
        -- intros [[-> | ?] | (f' & ? & ? & ?)]; [right | by left | right].
           ++ exists f. split; [left | done].
           ++ exists f'. split; [by right | done].
        -- intros [? | (f' & [-> | ?]%elem_of_cons & <- & Hn & ?)];
             [tauto | tauto |].
           right. by exists f'.
Qed.

Lemma foldl_bind_field_NoDup (fs : list JSONField) (st : BindState) :
  NoDup (dict_keys (unhandled st)) ->
  NoDup (dict_keys (unhandled (foldl step st fs))).
Proof.
  revert st. induction fs as [|f fs IH]; intros st Hst; simpl; [done |].
  apply IH. unfold bind_field.
  destruct (option_map !! option_name cmd f); simpl; [done |].
  case_decide; simpl; [done |]. by apply dict_keys_set_NoDup.
Qed.

Lemma bind_fields_NoDup (jc0 : list string) (fs : list JSONField) :
  NoDup (dict_keys
           (unhandled (bind_fields name cmd option_map handled_fields jc0 fs))).
Proof. apply foldl_bind_field_NoDup. simpl. apply NoDup_nil_2. Qed.

End binding.


(** ** The [match_window] exception *)

Lemma foldl_bind_match_window_id (name : string)
    (option_map : gmap string GoOption) (st : BindState)
    (l : list (string * JSONField)) :
  (forall e, e ∈ l -> e.1 <> "match_window") \/
  option_map !! "Match" = None \/ "Match" ∈ used_options st ->
  foldl (bind_match_window name option_map) st l = st.
Proof.
  intros H. induction l as [|[x f] l IH]; cbn [foldl]; [done |].
  assert (bind_match_window name option_map st (x, f) = st) as ->.
  { unfold bind_match_window. destruct (option_map !! "Match") eqn:Eo; [| done].
    case_decide as Hc; [| done]. destruct Hc as [-> Hu].
    destruct H as [H | [H | H]]; [| done | done].
    destruct (H ("match_window", f)); [left | done]. }
  apply IH. destruct H as [H | H]; [left | by right].
  intros e He. apply H. by right.
Qed.

Lemma bind_exceptions_bound (name : string) (option_map : gmap string GoOption)
    (st : BindState) (f : JSONField) (o : GoOption) :
  NoDup (dict_keys (unhandled st)) ->
  ("match_window", f) ∈ unhandled st ->
  option_map !! "Match" = Some o ->
  "Match" ∉ used_options st ->
  bind_exceptions name option_map st =
  {| jc := jc st ++ [match_binding name f o];
     used_options := {["Match"]} ∪ used_options st;
     unhandled := dict_del "match_window" (unhandled st) |}.
Proof.
  intros Hnd Hin Ho Hu. unfold bind_exceptions.
  destruct (list_elem_of_split _ _ Hin) as (l1 & l2 & E).
  assert (forall e, e ∈ l1 ++ l2 -> e.1 <> "match_window") as Hne.
  { unfold dict_keys in Hnd. rewrite E, fmap_app, fmap_cons in Hnd.
    apply NoDup_app in Hnd as (_ & H1 & [H2 _]%NoDup_cons).
    intros [x g] [Hx | Hx]%elem_of_app; simpl; intros ->.
    - apply (H1 "match_window"); [| left].
      apply list_elem_of_fmap. by exists ("match_window", g).
    - apply H2, list_elem_of_fmap. by exists ("match_window", g). }
  transitivity (foldl (bind_match_window name option_map) st
                  (l1 ++ ("match_window", f) :: l2)); [by rewrite <- E |].
  rewrite foldl_app, (foldl_bind_match_window_id name option_map st l1).
  2: { left. intros e He. apply Hne, elem_of_app. by left. }
  cbn [foldl]. unfold bind_match_window at 2. rewrite Ho.
  rewrite decide_True by done.
  apply foldl_bind_match_window_id. left.
  intros e He. apply Hne, elem_of_app. by right.
Qed.

(** C3. After the main loop, the field [match_window] is bound to the
    option [Match] exactly when it is unresolved, [Match] is declared and
    [Match] is not used yet: it then leaves the unresolved fields, [Match]
    becomes used and one statement is appended. When one of the three
    conditions fails the second loop changes nothing, so an unresolved
    [match_window] stays unresolved. *)
Theorem bind_exceptions_match_window (name : string) (cmd : RemoteCommand)
    (option_map : gmap string GoOption) (handled_fields : gset string)
    (jc0 : list string) (fs : list JSONField) :
  let st := bind_fields name cmd option_map handled_fields jc0 fs in
  let st' := bind_exceptions name option_map st in
  (forall o,
     "match_window" ∈ dict_keys (unhandled st) ->
     option_map !! "Match" = Some o ->
     "Match" ∉ used_options st ->
     exists f,
       ("match_window", f) ∈ unhandled st /\
       jc st' = jc st ++ [match_binding name f o] /\
       used_options st' = {["Match"]} ∪ used_options st /\
       unhandled st' = dict_del "match_window" (unhandled st) /\
       "match_window" ∉ dict_keys (unhandled st')) /\
  ("match_window" ∉ dict_keys (unhandled st) \/
   option_map !! "Match" = None \/ "Match" ∈ used_options st ->
   st' = st).
Proof.
  intros st st'. split.
  - intros o [f Hf]%elem_of_dict_keys Ho Hu. exists f. split; [done |].
    subst st'. rewrite (bind_exceptions_bound name option_map st f o);
      [| apply bind_fields_NoDup | done..].
    cbn [jc used_options unhandled]. repeat split.
    by intros [? _]%elem_of_dict_keys_del.
  - intros H. apply foldl_bind_match_window_id.
    destruct H as [H | H]; [left | by right].
    intros [x f] He; simpl; intros ->. apply H, elem_of_dict_keys. by exists f.
Qed.

(** The fields left unresolved by the two loops: those that match no option
    and that the argument handler did not handle, [match_window] left out
    when [Match] is declared and no field was bound to it. *)
Lemma unresolved_after_both_loops (name : string) (cmd : RemoteCommand)
    (option_map : gmap string GoOption) (handled_fields : gset string)
    (jc0 : list string) (fs : list JSONField) (x : string) :
  x ∈ dict_keys
        (unhandled
           (bind_exceptions name option_map
              (bind_fields name cmd option_map handled_fields jc0 fs))) <->
  (exists f, f ∈ fs /\ field f = x /\
             option_map !! option_name cmd f = None /\ (x ∉ handled_fields)) /\
  ~ (x = "match_window" /\ is_Some (option_map !! "Match") /\
     ~ exists f, f ∈ fs /\ option_name cmd f = "Match").
Proof.
  set (st := bind_fields name cmd option_map handled_fields jc0 fs).
  assert (forall H : "match_window" ∉ dict_keys (unhandled st) \/
                     option_map !! "Match" = None \/
                     "Match" ∈ used_options st,
            bind_exceptions name option_map st = st) as Hno.
  { intros H. apply foldl_bind_match_window_id.
    destruct H as [H | H]; [left | by right].
    intros [y f] He; simpl; intros ->. apply H, elem_of_dict_keys. by exists f. }
  assert (forall y, y ∈ dict_keys (unhandled st) <->
            exists f, f ∈ fs /\ field f = y /\
                      option_map !! option_name cmd f = None /\
                      (y ∉ handled_fields)) as Hst.
  { intros y. subst st. unfold bind_fields.
    rewrite foldl_bind_field_unhandled. cbn [unhandled dict_keys fmap list_fmap].
    rewrite elem_of_nil. tauto. }
  assert ("Match" ∈ used_options st <->
          (exists f, f ∈ fs /\ option_name cmd f = "Match") /\
          is_Some (option_map !! "Match")) as Hused.
  { subst st. unfold bind_fields. rewrite foldl_bind_field_used.
    cbn [used_options]. rewrite elem_of_empty. split.
    - intros [[] | (f & ? & ? & ?)]. split; [by exists f | done].
    - intros [(f & ? & ?) ?]. right. by exists f. }
  destruct (decide ("match_window" ∈ dict_keys (unhandled st))) as [Hmw | Hmw].
  2: { rewrite Hno by by left. rewrite Hst. split; [| tauto].
       intros H. split; [done |]. intros (-> & _). by apply Hmw, Hst. }
  destruct (option_map !! "Match") as [o|] eqn:Eo.
  2: { rewrite Hno by (right; by left). rewrite Hst. split; [| tauto].
       intros H. split; [done |]. by intros (_ & [? [=]] & _). }
  destruct (decide ("Match" ∈ used_options st)) as [Hu | Hu].
  { rewrite Hno by (right; by right). rewrite Hst. split; [| tauto].
    intros H. split; [done |]. intros (_ & _ & Hn). apply Hn. by apply Hused. }
  pose proof Hmw as [f Hf]%elem_of_dict_keys.
  rewrite (bind_exceptions_bound name option_map st f o);
    [| apply bind_fields_NoDup | done..].
  cbn [unhandled]. rewrite elem_of_dict_keys_del, Hst. split.
  - intros [Hne H]. split; [done |]. by intros [? _].
  - intros [H Hn]. split; [| done]. intros ->. apply Hn.
    split; [done |]. split; [done |]. intros Hex. apply Hu, Hused. by split.
Qed.

(** ** The two consistency checks *)

Lemma option_map_of_lookup_from (opts : list GoOption)
    (m : gmap string GoOption) (x : string) :
  is_Some (foldl (fun m o => <[go_var_name o := o]> m) m opts !! x) <->
  is_Some (m !! x) \/ exists o, o ∈ opts /\ go_var_name o = x.
Proof.
  revert m. induction opts as [|o opts IH]; intros m; cbn [foldl].
  - split; [by left |]. intros [? | (o & ?%elem_of_nil & _)]; done.
  - rewrite IH, lookup_insert_is_Some. split.
    + intros [[<- | [_ ?]] | (o' & ? & ?)].
      * right. exists o. split; [left | done].
      * by left.
      * right. exists o'. split; [by right | done].
    + intros [? | (o' & [-> | ?]%elem_of_cons & <-)].
      * destruct (decide (go_var_name o = x)); [left; by left |].
        left. by right.
      * left. by left.
      * right. by exists o'.
Qed.

(** The declared options are the keys of [option_map]. *)
Lemma elem_of_dom_option_map_of (opts : list GoOption) (x : string) :
  x ∈ dom (option_map_of opts) <-> exists o, o ∈ opts /\ go_var_name o = x.
Proof.
  rewrite elem_of_dom. unfold option_map_of.
  rewrite option_map_of_lookup_from, lookup_empty. split.
  - intros [[? Hx] | ?]; done.
  - by right.
Qed.

Lemma elem_of_unused_options (opts : list GoOption) (used : gset string)
    (x : string) :
  x ∈ unused_options (option_map_of opts) used <->
  (exists o, o ∈ opts /\ go_var_name o = x) /\ (x ∉ used) /\
  x <> "NoResponse" /\ x <> "ResponseTimeout".
Proof.
  unfold unused_options, reserved_options.
  rewrite !elem_of_difference, elem_of_dom_option_map_of.
  rewrite elem_of_union, !elem_of_singleton. tauto.
Qed.



Section checks.
Variable serialize_as_go_string : string -> string.
Variable file__ : string.
Variable rc_command_options : string -> list GoOption.

Local Abbreviation compile :=
  (go_code_for_remote_command serialize_as_go_string file__ rc_command_options).
Local Abbreviation resolve := (resolve_fields rc_command_options).



(** ** The writer *)

Lemma banner_app_nonempty (output : string) :
  banner file__ +:+ output <> EmptyString.
Proof. unfold banner. discriminate. Qed.


End checks.

(** ** Worked commands *)

Example sample_table_fields :
  json_fields sample_table = [match_window_field; foo_bar_field].
Proof. reflexivity. Qed.



(** The command [get_x] stops on its unused option. *)
Example go_code_get_x :
  go_code_for_remote_command id "gen-go-code.py" sample_options "get_x"
    (sample_command sample_protocol_spec) sample_template
  = Raise (SystemExit "Unused options: Zed for command: get_x").
Proof. vm_compute. reflexivity. Qed.

(** With the same options and fields, [send_text] compiles. *)
Example go_code_send_text :
  go_code_for_remote_command id "gen-go-code.py"
    (fun _ => sample_options "get_x") "send_text"
    (sample_command sample_protocol_spec) sample_template
  = Ok (newline +:+ newline +:+ "package at // send_text send-text"
          +:+ newline
          +:+ "payload.Foo_bar = escape_list_of_strings(options_send_text.FooBar)"
          +:+ newline
          +:+ "payload.Match_window = escaped_string(options_send_text.Match)").
Proof. vm_compute. reflexivity. Qed.



(** The statement of the example field. *)
Example option_binding_foo_bar :
  option_binding "get_x" foo_bar_field (sample_option "FooBar") =
  "payload.Foo_bar = escape_list_of_strings(options_get_x.FooBar)".
Proof. reflexivity. Qed.

(** For [get_x] the exception binds [match_window] to [Match]; for [set_x],
    which declares no [Match], the field stays unresolved. *)
Lemma bind_exceptions_match_window_witness :
  let cmd := sample_command sample_protocol_spec in
  let fs := [match_window_field; foo_bar_field] in
  (let option_map := option_map_of (sample_options "get_x") in
   let st := bind_fields "get_x" cmd option_map ∅ [] fs in
   let st' := bind_exceptions "get_x" option_map st in
   exists f,
     ("match_window", f) ∈ unhandled st /\
     jc st' = jc st ++ [match_binding "get_x" f (sample_option "Match")] /\
     used_options st' = {["Match"]} ∪ used_options st /\
     unhandled st' = dict_del "match_window" (unhandled st) /\
     "match_window" ∉ dict_keys (unhandled st')) /\
  (let option_map := option_map_of (sample_options "set_x") in
   let st := bind_fields "set_x" cmd option_map ∅ [] fs in
   bind_exceptions "set_x" option_map st = st /\
   "match_window" ∈ dict_keys (unhandled st)).
Proof.
  intros cmd fs. split.
  - intros option_map.
    apply (proj1 (bind_exceptions_match_window "get_x" cmd option_map ∅ [] fs)
             (sample_option "Match")).
    + by_evaluation.
    + vm_compute. reflexivity.
    + by_evaluation.
  - intros option_map st. split; [| by_evaluation].
    apply (proj2 (bind_exceptions_match_window "set_x" cmd option_map ∅ [] fs)).
    right. left. vm_compute. reflexivity.
Defined.


Example replace_if_needed_twice :
  let w := {| files := ∅; changed := ["constants_generated.go"] |} in
  let path := "tools/cmd/at/cmd_ls_generated.go" in
  changed (replace_if_needed "/src/kitty/gen-go-code.py" path false "package at"
             (replace_if_needed "/src/kitty/gen-go-code.py" path true
                "package at" w))
  = ["constants_generated.go"; path].
Proof. vm_compute. reflexivity. Qed.

Example banner_text :
  banner "/src/kitty/gen-go-code.py" =
  "// Code generated by gen-go-code.py; DO NOT EDIT." +:+ newline +:+ newline.
Proof. reflexivity. Qed.

(** * Further properties *)

(** ** Dicts filled by a loop *)

Section filled.
Context {A V : Type} (k : A -> string) (v : A -> V).

Local Abbreviation fill := (foldl (fun (m : gmap string V) a => <[k a := v a]> m)).

Lemma fill_lookup_Some (l : list A) (m : gmap string V) (x : string) (y : V) :
  fill m l !! x = Some y ->
  m !! x = Some y \/ exists a, a ∈ l /\ k a = x /\ v a = y.
Proof.
  revert m. induction l as [|a l IH]; intros m; cbn [foldl]; [by left |].
  intros [H | (a' & ? & ? & ?)]%IH.
  - destruct (decide (k a = x)) as [<- | Hne].
    + rewrite lookup_insert_eq in H. injection H as <-.
      right. exists a. split; [left | done].
    + rewrite lookup_insert_ne in H by done. by left.
  - right. exists a'. split; [by right | done].
Qed.

Lemma fill_lookup_absent (l : list A) (m : gmap string V) (x : string) :
  (forall a, a ∈ l -> k a <> x) -> fill m l !! x = m !! x.
Proof.
  revert m. induction l as [|a l IH]; intros m Hl; cbn [foldl]; [done |].
  rewrite IH by (intros a' ?; apply Hl; by right).
  apply lookup_insert_ne, Hl. left.
Qed.

Lemma fill_lookup_last (pre post : list A) (a : A) (m : gmap string V) :
  (forall a', a' ∈ post -> k a' <> k a) ->
  fill m (pre ++ a :: post) !! k a = Some (v a).
Proof.
  intros Hpost. rewrite foldl_app. cbn [foldl].
  rewrite fill_lookup_absent by done. apply lookup_insert_eq.
Qed.

Lemma fill_lookup_is_Some (l : list A) (m : gmap string V) (x : string) :
  is_Some (fill m l !! x) <->
  is_Some (m !! x) \/ exists a, a ∈ l /\ k a = x.
Proof.
  revert m. induction l as [|a l IH]; intros m; cbn [foldl].
  - split; [by left |]. intros [? | (a & ?%elem_of_nil & _)]; done.
  - rewrite IH, lookup_insert_is_Some. split.
    + intros [[<- | [_ ?]] | (a' & ? & ?)].
      * right. exists a. split; [left | done].
      * by left.
      * right. exists a'. split; [by right | done].
    + intros [? | (a' & [-> | ?]%elem_of_cons & <-)].
      * destruct (decide (k a = x)); [left; by left |]. left. by right.
      * left. by left.
      * right. by exists a'.
Qed.

End filled.

(** X1. Looking an option up by name gives a declared option of that
    name, and of several options with one name the last declared. *)
Theorem option_map_of_lookup (opts : list GoOption) :
  (forall x o, option_map_of opts !! x = Some o ->
     o ∈ opts /\ go_var_name o = x) /\
  (forall x, option_map_of opts !! x = None <->
     forall o, o ∈ opts -> go_var_name o <> x) /\
  (forall pre o post,
     opts = pre ++ o :: post ->
     (forall o', o' ∈ post -> go_var_name o' <> go_var_name o) ->
     option_map_of opts !! go_var_name o = Some o).
Proof.
  unfold option_map_of. split; [| split].
  - intros x o [H | (a & ? & ? & ->)]%fill_lookup_Some; [| done].
    by rewrite lookup_empty in H.
  - intros x. split.
    + intros Hn o Ho <-. apply eq_None_not_Some in Hn. apply Hn.
      apply option_map_of_lookup_from. right. by exists o.
    + intros Hn. rewrite fill_lookup_absent by done. apply lookup_empty.
  - intros pre o post -> Hpost.
    by apply (fill_lookup_last go_var_name (fun o => o)).
Qed.

(** ** The table of field types *)

Lemma parse_lines_field_types (lines : list string) (t t' : FieldTable) :
  for_each parse_line t lines = Ok t' ->
  exists fs,
    json_fields t' = json_fields t ++ fs /\
    field_types t' =
    foldl (fun m f => <[field f := field_type f]> m) (field_types t) fs.
Proof.
  revert t. induction lines as [|line lines IH]; intros t; cbn [for_each].
  - intros [= <-]. exists []. by rewrite app_nil_r.
  - destruct (parse_line t line) as [t1|e] eqn:E1; [| done].
    cbn [mbind result_bind]. intros (fs & Hfs & Hft)%IH.
    unfold parse_line in E1.
    destruct (negb (Py.contains_char ":" (Py.strip line))).
    { injection E1 as <-. by exists fs. }
    destruct (JSONField_init (Py.strip line)) as [f|]; [| done].
    cbn [mbind result_bind] in E1.
    destruct (go_declaration f) as [d|]; [| done]. injection E1 as <-.
    cbn [json_fields field_types] in Hfs, Hft.
    exists (f :: fs). by rewrite Hfs, <- app_assoc.
Qed.

(** X2. After a block is parsed, the table of field types holds exactly
    the names of the parsed fields, each with the type of a field of that
    name: the type of the last one when a name is repeated. *)
Theorem field_types_lookup (protocol_spec : string) (t : FieldTable) :
  parse_protocol_spec protocol_spec = Ok t ->
  (forall x ty, field_types t !! x = Some ty ->
     exists f, f ∈ json_fields t /\ field f = x /\ field_type f = ty) /\
  (forall f, f ∈ json_fields t -> is_Some (field_types t !! field f)) /\
  (forall pre f post,
     json_fields t = pre ++ f :: post ->
     (forall f', f' ∈ post -> field f' <> field f) ->
     field_types t !! field f = Some (field_type f)).
Proof.
  intros (fs & Hfs & Hft)%parse_lines_field_types.
  cbn [json_fields field_types empty_field_table app] in Hfs, Hft.
  rewrite Hfs, Hft. clear Hfs Hft. split; [| split].
  - intros x ty [H | H]%fill_lookup_Some; [| done].
    by rewrite lookup_empty in H.
  - intros f Hf. apply fill_lookup_is_Some. right. by exists f.
  - intros pre f post -> Hpost.
    by apply (fill_lookup_last field field_type).
Qed.

Lemma field_types_lookup_witness :
  (forall x ty, field_types sample_table !! x = Some ty ->
     exists f, f ∈ json_fields sample_table /\ field f = x /\ field_type f = ty) /\
  (forall f, f ∈ json_fields sample_table ->
     is_Some (field_types sample_table !! field f)) /\
  (forall pre f post,
     json_fields sample_table = pre ++ f :: post ->
     (forall f', f' ∈ post -> field f' <> field f) ->
     field_types sample_table !! field f = Some (field_type f)).
Proof.
  apply (field_types_lookup sample_protocol_spec sample_table).
  vm_compute. reflexivity.
Defined.

(** ** The two loops over the fields *)

Lemma elem_of_dict_set {V : Type} (k : string) (v : V)
    (d : list (string * V)) (e : string * V) :
  e ∈ dict_set k v d -> e = (k, v) \/ e ∈ d.
Proof.
  induction d as [|[k0 v0] d IH]; simpl.
  - intros ?%list_elem_of_singleton. by left.
  - case_decide.
    + intros [-> | ?]%elem_of_cons; [by left | right; by right].
    + intros [-> | [-> | ?]%IH]%elem_of_cons;
        [right; left | by left | right; by right].
Qed.

(** Every queued entry is a field under its own name. *)
Lemma foldl_bind_field_entries (name : string) (cmd : RemoteCommand)
    (option_map : gmap string GoOption) (handled_fields : gset string)
    (fs : list JSONField) (st : BindState) (e : string * JSONField) :
  e ∈ unhandled (foldl (bind_field name cmd option_map handled_fields) st fs) ->
  e ∈ unhandled st \/ (e.2 ∈ fs /\ field e.2 = e.1).
Proof.
  revert st. induction fs as [|f fs IH]; intros st; cbn [foldl]; [by left |].
  intros [H | [? ?]]%IH; [| right; split; [by right | done]].
  unfold bind_field in H.
  destruct (option_map !! option_name cmd f); [by left |].
  case_decide; [by left |]. cbn [unhandled] in H.
  apply elem_of_dict_set in H as [-> | H]; [| by left].
  right. split; [left | done].
Qed.


(** The second loop either changes nothing or binds [match_window]. *)
Lemma bind_exceptions_cases (name : string) (cmd : RemoteCommand)
    (option_map : gmap string GoOption) (handled_fields : gset string)
    (jc0 : list string) (fs : list JSONField) :
  let st := bind_fields name cmd option_map handled_fields jc0 fs in
  (bind_exceptions name option_map st = st /\
   ("match_window" ∉ dict_keys (unhandled st) \/
    option_map !! "Match" = None \/ "Match" ∈ used_options st)) \/
  (exists f o,
     ("match_window", f) ∈ unhandled st /\
     option_map !! "Match" = Some o /\ ("Match" ∉ used_options st) /\
     bind_exceptions name option_map st =
     {| jc := jc st ++ [match_binding name f o];
        used_options := {["Match"]} ∪ used_options st;
        unhandled := dict_del "match_window" (unhandled st) |}).
Proof.
  intros st.
  assert (forall H : "match_window" ∉ dict_keys (unhandled st) \/
                     option_map !! "Match" = None \/
                     "Match" ∈ used_options st,
            bind_exceptions name option_map st = st) as Hno.
  { intros H. apply foldl_bind_match_window_id.
    destruct H as [H | H]; [left | by right].
    intros [y f] He; simpl; intros ->. apply H, elem_of_dict_keys. by exists f. }
  destruct (decide ("match_window" ∈ dict_keys (unhandled st))) as [Hmw | Hmw];
    [| left; split; [apply Hno |]; by left].
  destruct (option_map !! "Match") as [o|] eqn:Eo;
    [| left; split; [apply Hno |]; right; by left].
  destruct (decide ("Match" ∈ used_options st)) as [Hu | Hu];
    [left; split; [apply Hno |]; right; by right |].
  right. pose proof Hmw as [f Hf]%elem_of_dict_keys. exists f, o.
  repeat split; try done.
  apply bind_exceptions_bound; [apply bind_fields_NoDup | done..].
Qed.

(** ** Option names *)

Lemma upper_char_underscore (c : ascii) :
  Py.char_eqb "_" (Py.upper_char c) = Py.char_eqb "_" c.
Proof. destruct c as [[] [] [] [] [] [] [] []]; reflexivity. Qed.

Lemma lower_char_underscore (c : ascii) :
  Py.char_eqb "_" (Py.lower_char c) = Py.char_eqb "_" c.
Proof. destruct c as [[] [] [] [] [] [] [] []]; reflexivity. Qed.

Lemma contains_underscore_lower (s : string) :
  Py.contains_char "_" (Py.lower s) = Py.contains_char "_" s.
Proof.
  induction s as [|c s IH]; [done |]. cbn [Py.lower Py.contains_char].
  by rewrite lower_char_underscore, IH.
Qed.

Lemma contains_underscore_capitalize (s : string) :
  Py.contains_char "_" (Py.capitalize s) = Py.contains_char "_" s.
Proof.
  destruct s as [|c s]; [done |]. cbn [Py.capitalize Py.contains_char].
  by rewrite upper_char_underscore, contains_underscore_lower.
Qed.

(** No piece of [s.split(c)] holds a [c]. *)
Lemma split_pieces (c : ascii) (s : string) :
  Forall (fun x => Py.contains_char c x = false) (Py.split c s).
Proof.
  induction s as [|d s IH]; simpl; [by repeat constructor |].
  destruct (Py.char_eqb c d) eqn:E; [by constructor |].
  destruct (Py.split c s) as [|w ws]; [by repeat constructor; simpl; rewrite E |].
  apply Forall_cons in IH as [Hw Hws]. constructor; [| done].
  simpl. by rewrite E, Hw.
Qed.

Lemma join_empty_contains (c : ascii) (l : list string) :
  Forall (fun x => Py.contains_char c x = false) l ->
  Py.contains_char c (Py.join EmptyString l) = false.
Proof.
  induction l as [|x l IH]; [done |]. intros [Hx Hl]%Forall_cons.
  destruct l as [|y l]; [done |].
  change (Py.join EmptyString (x :: y :: l))
    with (x +:+ EmptyString +:+ Py.join EmptyString (y :: l)).
  by rewrite !PyFacts.contains_char_app, Hx, (IH Hl).
Qed.

(** X3. The option name computed for a field never holds an underscore, so
    a declared option whose Go name holds one is matched by no field. *)
Theorem option_name_no_underscore (cmd : RemoteCommand) (f : JSONField) :
  Py.contains_char "_" (option_name cmd f) = false /\
  forall (name : string) (option_map : gmap string GoOption)
         (handled_fields : gset string) (jc0 : list string)
         (fs : list JSONField) (x : string),
    Py.contains_char "_" x = true ->
    x ∉ used_options
          (bind_exceptions name option_map
             (bind_fields name cmd option_map handled_fields jc0 fs)).
Proof.
  assert (forall g, Py.contains_char "_" (option_name cmd g) = false) as Hno.
  { intros g. unfold option_name. apply join_empty_contains.
    apply Forall_fmap. eapply Forall_impl; [apply split_pieces |].
    intros x Hx. simpl. by rewrite contains_underscore_capitalize. }
  split; [apply Hno |].
  intros name option_map handled_fields jc0 fs x Hx Hin.
  set (st := bind_fields name cmd option_map handled_fields jc0 fs) in *.
  assert (x ∉ used_options st) as Hst.
  { subst st. unfold bind_fields.
    intros [H | (g & _ & <- & _)]%foldl_bind_field_used.
    - by apply elem_of_empty in H.
    - by rewrite Hno in Hx. }
  destruct (bind_exceptions_cases name cmd option_map handled_fields jc0 fs)
    as [[E _] | (g & o & _ & _ & _ & E)]; fold st in E; rewrite E in Hin;
    [done |].
  cbn [used_options] in Hin.
  apply elem_of_union in Hin as [->%elem_of_singleton | Hin]; [| done].
  vm_compute in Hx. discriminate.
Qed.

Lemma elem_of_used_after_both_loops (name : string) (cmd : RemoteCommand)
    (option_map : gmap string GoOption) (handled_fields : gset string)
    (jc0 : list string) (fs : list JSONField) (x : string) :
  let st := bind_fields name cmd option_map handled_fields jc0 fs in
  x ∈ used_options (bind_exceptions name option_map st) <->
  (exists f, f ∈ fs /\ option_name cmd f = x /\ is_Some (option_map !! x)) \/
  (x = "Match" /\ is_Some (option_map !! "Match") /\
   "match_window" ∈ dict_keys (unhandled st)).
Proof.
  intros st.
  assert (forall y, y ∈ used_options st <->
            exists f, f ∈ fs /\ option_name cmd f = y /\
                      is_Some (option_map !! y)) as Hst.
  { intros y. subst st. unfold bind_fields. rewrite foldl_bind_field_used.
    cbn [used_options]. rewrite elem_of_empty. tauto. }
  destruct (bind_exceptions_cases name cmd option_map handled_fields jc0 fs)
    as [[E Hc] | (g & o & Hg & Ho & Hu & E)].
  - fold st in E, Hc. rewrite E, Hst. split; [by left |].
    intros [? | (-> & [o Ho] & Hmw)]; [done |].
    destruct Hc as [Hc | [Hc | Hc]]; [done | congruence |]. by apply Hst.
  - fold st in E, Hg, Hu. rewrite E. cbn [used_options].
    rewrite elem_of_union, elem_of_singleton, Hst. split.
    + intros [-> | ?]; [right | by left].
      split; [done |]. split; [by eexists |].
      apply elem_of_dict_keys. by exists g.
    + intros [? | (-> & _ & _)]; [by right | by left].
Qed.

Section returns.
Variable serialize_as_go_string : string -> string.
Variable file__ : string.
Variable rc_command_options : string -> list GoOption.

Local Abbreviation compile :=
  (go_code_for_remote_command serialize_as_go_string file__ rc_command_options).
Local Abbreviation resolve := (resolve_fields rc_command_options).

(** X4. The fields a command leaves unresolved are those whose computed
    option name is not declared and that the argument handler did not
    handle, [match_window] left out when [Match] is declared and is the
    option name of no field. *)
Theorem resolve_fields_unresolved (name : string) (cmd : RemoteCommand)
    (t : FieldTable) (x : string) :
  let om := option_map_of (rc_command_options name) in
  let handled := (as_go_code (args cmd) name (field_types t) ∅).2 in
  x ∈ dict_keys (unhandled (resolve name cmd t)) <->
  (exists f, f ∈ json_fields t /\ field f = x /\
             om !! option_name cmd f = None /\ (x ∉ handled)) /\
  ~ (x = "match_window" /\ is_Some (om !! "Match") /\
     ~ exists f, f ∈ json_fields t /\ option_name cmd f = "Match").
Proof.
  intros om handled. subst handled. unfold resolve_fields.
  destruct (as_go_code (args cmd) name (field_types t) ∅)
    as [args_code handled_fields].
  apply unresolved_after_both_loops.
Qed.

(** X5. The options a command uses are the declared options that are the
    computed option name of some field, and [Match] when it is declared and
    [match_window] is a field that matches no option and that the argument
    handler did not handle; every used option is declared. *)
Theorem resolve_fields_used (name : string) (cmd : RemoteCommand)
    (t : FieldTable) :
  let om := option_map_of (rc_command_options name) in
  let handled := (as_go_code (args cmd) name (field_types t) ∅).2 in
  (forall x,
     x ∈ used_options (resolve name cmd t) <->
     (exists f, f ∈ json_fields t /\ option_name cmd f = x /\
                is_Some (om !! x)) \/
     (x = "Match" /\ is_Some (om !! "Match") /\
      exists f, f ∈ json_fields t /\ field f = "match_window" /\
                om !! option_name cmd f = None /\
                ("match_window" ∉ handled))) /\
  used_options (resolve name cmd t) ⊆ dom om.
Proof.
  intros om handled. subst handled. unfold resolve_fields.
  destruct (as_go_code (args cmd) name (field_types t) ∅)
    as [args_code handled_fields]. cbn [snd]. fold om.
  assert (forall x,
     x ∈ used_options
           (bind_exceptions name om
              (bind_fields name cmd om handled_fields args_code
                 (json_fields t))) <->
     (exists f, f ∈ json_fields t /\ option_name cmd f = x /\
                is_Some (om !! x)) \/
     (x = "Match" /\ is_Some (om !! "Match") /\
      exists f, f ∈ json_fields t /\ field f = "match_window" /\
                om !! option_name cmd f = None /\
                ("match_window" ∉ handled_fields))) as Hall.
  { intros x. rewrite elem_of_used_after_both_loops.
    unfold bind_fields. rewrite foldl_bind_field_unhandled.
    cbn [unhandled dict_keys fmap list_fmap]. rewrite elem_of_nil. tauto. }
  split; [exact Hall |].
  intros x [(f & _ & _ & Hs) | (-> & Hs & _)]%Hall; by apply elem_of_dom.
Qed.

(** X6. The binding statements of a command are those of the argument
    handler, then one for each field whose computed option name is
    declared, in the order of the fields, then at most one for
    [match_window]. *)
Theorem resolve_fields_statements (name : string) (cmd : RemoteCommand)
    (t : FieldTable) :
  let om := option_map_of (rc_command_options name) in
  let args_code := (as_go_code (args cmd) name (field_types t) ∅).1 in
  exists last,
    jc (resolve name cmd t) =
    args_code ++ omap (binding_of name cmd om) (json_fields t) ++ last /\
    (last = [] \/
     exists f o, f ∈ json_fields t /\ field f = "match_window" /\
                 om !! "Match" = Some o /\ last = [match_binding name f o]).
Proof.
  intros om args_code. subst args_code. unfold resolve_fields.
  destruct (as_go_code (args cmd) name (field_types t) ∅)
    as [args_code handled_fields]. cbn [fst]. fold om.
  destruct (bind_exceptions_cases name cmd om handled_fields args_code
              (json_fields t)) as [[E _] | (g & o & Hg & Ho & _ & E)];
    rewrite E.
  - exists []. split; [| by left]. rewrite app_nil_r.
    apply foldl_bind_field_jc.
  - exists [match_binding name g o]. cbn [jc]. split.
    + unfold bind_fields. by rewrite foldl_bind_field_jc, <- app_assoc.
    + right. exists g, o.
      apply foldl_bind_field_entries in Hg as [Hg | [Hg1 Hg2]];
        [by apply elem_of_nil in Hg | done].
Qed.

Lemma go_code_returns (name : string) (cmd : RemoteCommand)
    (template : string) (t : FieldTable) :
  parse_protocol_spec (protocol_spec cmd) = Ok t ->
  unhandled (resolve name cmd t) = [] ->
  name = "send_text" \/
  unused_options (option_map_of (rc_command_options name))
    (used_options (resolve name cmd t)) = ∅ ->
  is_Ok (compile name cmd template).
Proof.
  intros Hp Hu Hor. unfold go_code_for_remote_command. rewrite Hp.
  cbn [mbind result_bind]. rewrite Hu.
  rewrite decide_False by (intros [? ?]; by destruct Hor). by eexists.
Qed.

(** X7. A command whose block parses, whose fields all have a declared
    option under their computed option name and whose options, the two
    reserved ones apart, are all the computed option name of some field,
    compiles. *)
Theorem go_code_exact_match (name : string) (cmd : RemoteCommand)
    (template : string) (t : FieldTable) :
  parse_protocol_spec (protocol_spec cmd) = Ok t ->
  (forall f, f ∈ json_fields t ->
     is_Some (option_map_of (rc_command_options name) !! option_name cmd f)) ->
  (forall o, o ∈ rc_command_options name ->
     go_var_name o ∈ reserved_options \/
     exists f, f ∈ json_fields t /\ option_name cmd f = go_var_name o) ->
  is_Ok (compile name cmd template).
Proof.
  intros Hp Hfields Hopts. apply (go_code_returns name cmd template t Hp);
    unfold resolve_fields;
    destruct (as_go_code (args cmd) name (field_types t) ∅)
      as [args_code handled_fields];
    set (om := option_map_of (rc_command_options name)) in *.
  - assert (dict_keys
              (unhandled
                 (bind_exceptions name om
                    (bind_fields name cmd om handled_fields args_code
                       (json_fields t)))) = []) as Hk.
    { apply elem_of_nil_inv.
      intros x [(f & Hf & _ & Hn & _) _]%unresolved_after_both_loops.
      specialize (Hfields f Hf). rewrite Hn in Hfields. by destruct Hfields. }
    unfold dict_keys in Hk. by apply fmap_nil_inv in Hk.
  - right. apply set_eq. intros x. split; [| by intros ?%elem_of_empty].
    intros ((o & Ho & <-) & Hu & Hr1 & Hr2)%elem_of_unused_options.
    destruct (Hopts o Ho) as [Hr | (f & Hf & E)].
    + unfold reserved_options in Hr.
      apply elem_of_union in Hr as [?%elem_of_singleton | ?%elem_of_singleton];
        done.
    + destruct Hu.
      apply (elem_of_used_after_both_loops name cmd om handled_fields
               args_code (json_fields t)).
      left. exists f. rewrite E. split; [done |]. split; [done |].
      rewrite <- E. by apply Hfields.
Qed.

End returns.

(** ** Lines that are not fields *)

Lemma strip_marker_empty (name_part : string) :
  strip_marker name_part = EmptyString <->
  name_part = EmptyString \/ name_part = "+".
Proof.
  unfold strip_marker. split.
  - destruct name_part as [|c [|d s]]; [by left | | ].
    + cbn [Py.endswith_char Py.drop_last].
      destruct (Py.char_eqb "+" c) eqn:E; [| done].
      apply PyFacts.char_eqb_true in E as <-. by right.
    + destruct (Py.endswith_char "+" (String c (String d s))); [| done].
      cbn [Py.drop_last]. by destruct s.
  - by intros [-> | ->].
Qed.

(** X8. The constructor of a field fails in two ways only: with the
    [ValueError] of the unpacking when the text before the first colon
    holds no slash, and with the [IndexError] of the first character when
    the name before the slash is empty or a lone [+]. *)
Theorem JSONField_init_failures (line : string) :
  let field_def := (Py.split1 ":" line).1 in
  (Py.contains_char "/" field_def = false ->
   JSONField_init line =
   Raise (ValueError "not enough values to unpack (expected 2, got 1)")) /\
  (forall ty,
     (Py.split1 "/" field_def = (EmptyString, Some ty) \/
      Py.split1 "/" field_def = ("+", Some ty)) ->
     JSONField_init line = Raise (IndexError "string index out of range")) /\
  (forall e, JSONField_init line = Raise e ->
     (e = ValueError "not enough values to unpack (expected 2, got 1)" /\
      Py.contains_char "/" field_def = false) \/
     (e = IndexError "string index out of range" /\
      exists ty, Py.split1 "/" field_def = (EmptyString, Some ty) \/
                 Py.split1 "/" field_def = ("+", Some ty))).
Proof.
  intros field_def. unfold JSONField_init. fold field_def.
  split; [| split].
  - intros H. by rewrite (PyFacts.split1_absent _ _ H).
  - by intros ty [-> | ->].
  - intros e. destruct (Py.split1 "/" field_def) as [np [ty|]] eqn:Es.
    + pose proof (strip_marker_empty np) as Hm. unfold strip_marker in Hm.
      destruct (if Py.endswith_char "+" np then Py.drop_last np else np)
        eqn:En; [| done].
      intros [= <-]. right. split; [done |]. exists ty.
      destruct (proj1 Hm eq_refl) as [-> | ->]; [by left | by right].
    + intros [= <-]. left. split; [done |].
      by apply PyFacts.split1_None in Es as [_ ?].
Qed.

(** ** Blocks that do not parse *)

Lemma for_each_app {S A : Type} (body : S -> A -> result S)
    (s : S) (l1 l2 : list A) :
  for_each body s (l1 ++ l2) = s' ← for_each body s l1; for_each body s' l2.
Proof.
  revert s. induction l1 as [|x l1 IH]; intros s; cbn [for_each app]; [done |].
  destruct (body s x); cbn [mbind result_bind]; [apply IH | done].
Qed.

(** X9. Parsing stops at the first line that holds a colon and is not a
    field with a resolvable type, with the exception of that line; the
    lines after it are not looked at. *)
Theorem parse_protocol_spec_first_error (protocol_spec : string)
    (pre post : list string) (line : string) (e : exn) :
  Py.splitlines protocol_spec = pre ++ line :: post ->
  Forall (fun l => exists f d, JSONField_init l = Ok f /\ go_declaration f = Ok d)
    (filter (fun l => Is_true (Py.contains_char ":" l)) (Py.strip <$> pre)) ->
  Py.contains_char ":" (Py.strip line) = true ->
  (f ← JSONField_init (Py.strip line); go_declaration f) = Raise e ->
  parse_protocol_spec protocol_spec = Raise e.
Proof.
  intros Hl Hpre Hc He. unfold parse_protocol_spec. rewrite Hl, for_each_app.
  destruct (parse_lines pre empty_field_table Hpre) as (t & _ & _ & -> & _).
  cbn [mbind result_bind for_each]. unfold parse_line. rewrite Hc.
  cbn [negb]. destruct (JSONField_init (Py.strip line)) as [f|];
    cbn [mbind result_bind] in He |- *; [| by injection He as ->].
  by rewrite He.
Qed.

(** ** The grammar of type tokens *)

Lemma container_prefixes_Some (p p' : string) :
  container_prefixes !! p = Some p' ->
  (p = "list" /\ p' = "[]") \/ (p = "dict" /\ p' = "map[string]").
Proof.
  unfold container_prefixes. intros H%elem_of_list_to_map_2.
  repeat (apply elem_of_cons in H as [[= -> ->] | H]; [tauto |]).
  by apply elem_of_nil in H.
Qed.

Lemma go_field_type_fuel_resolves (n : nat) (t q : string) :
  go_field_type_fuel n t = Ok q -> resolves_to t q.
Proof.
  revert t q. induction n as [|n IH]; intros t q; simpl; [done |].
  unfold go_field_type_body.
  destruct (json_field_types !! t) as [v|] eqn:Et.
  { pose proof (json_field_types_Some _ _ Et) as [_ Hv].
    destruct v as [|c v]; [done |]. intros [= <-]. by apply resolves_exact. }
  destruct (Py.startswith "choices." t) eqn:Ec.
  { intros [= <-]. by apply resolves_choices. }
  destruct (Py.contains_char "." t); [| done].
  destruct (Py.split1 "." t) as [p [r|]] eqn:Es; [| done].
  apply PyFacts.split1_Some in Es as [-> _].
  destruct (container_prefixes !! p) as [p'|] eqn:Ep; [| done].
  destruct (go_field_type_fuel n r) as [q'|] eqn:Er; [| done].
  cbn [mbind result_bind]. intros [= <-]. apply IH in Er.
  apply container_prefixes_Some in Ep as [[-> ->] | [-> ->]].
  - by apply resolves_list.
  - by apply resolves_dict.
Qed.

(** X10. The mapper resolves exactly the tokens of this grammar: an entry of
    the exact-match table, a token that starts with [choices.], or [list.]
    or [dict.] followed by a token of the grammar; the Go type is the
    entry, [string], or the wrapper around the type of the rest. *)
Theorem go_field_type_grammar (t q : string) :
  go_field_type t = Ok q <-> resolves_to t q.
Proof.
  split; [apply go_field_type_fuel_resolves |].
  induction 1 as [t q Ht | t Ht Hc | r q Ht _ IH | r q Ht _ IH];
    rewrite go_field_type_unfold; unfold go_field_type_body; rewrite Ht.
  - pose proof (json_field_types_Some _ _ Ht) as [_ Hq]. by destruct q.
  - by rewrite Hc.
  - change (Py.startswith "choices." ("list." +:+ r)) with false.
    change (Py.contains_char "." ("list." +:+ r)) with true.
    change (Py.split1 "." ("list." +:+ r)) with ("list", Some r).
    cbn match. rewrite container_prefixes_list, IH. done.
  - change (Py.startswith "choices." ("dict." +:+ r)) with false.
    change (Py.contains_char "." ("dict." +:+ r)) with true.
    change (Py.split1 "." ("dict." +:+ r)) with ("dict", Some r).
    cbn match. rewrite container_prefixes_dict, IH. done.
Qed.

(** ** Substitution in templates *)

Lemma replace_from_absent (old new s : string) :
  old <> EmptyString -> occurs_inb old s = false ->
  Py.replace_from old new 0 s = s.
Proof.
  intros Ho. induction s as [|c s IH]; cbn [Py.replace_from occurs_inb].
  - by destruct old.
  - intros [Hs Hr]%orb_false_elim. destruct old as [|a old']; [done |].
    rewrite Hs. by rewrite (IH Hr).
Qed.

(** X11. A template that holds none of the markers comes back unchanged,
    whatever the values are. *)
Theorem replace_without_markers (template : string)
    (kw : list (string * string)) :
  Forall (fun kv => kv.1 <> EmptyString /\ ~ occurs_in kv.1 template) kw ->
  replace template kw = template.
Proof.
  unfold replace. induction kw as [|[k v] kw IH]; [done |].
  intros [[Hk Hn] Hkw]%Forall_cons. cbn [foldl fst snd] in *.
  unfold Py.replace. rewrite replace_from_absent; [by apply IH | done |].
  destruct (occurs_inb k template) eqn:E; [| done].
  by apply occurs_inb_true in E.
Qed.

Lemma replace_from_head (old new rest : string) (c : ascii) :
  Py.startswith old (String c rest) = false -> old <> EmptyString ->
  Py.replace_from old new 0 (String c rest)
  = String c (Py.replace_from old new 0 rest).
Proof.
  intros Hs Ho. cbn [Py.replace_from]. destruct old; [done |]. by rewrite Hs.
Qed.

Lemma replace_keeps_newline (kw : list (string * string)) (body : string) :
  Forall (fun kv : string * string =>
            exists a k, kv.1 = String a k /\ Py.char_eqb a "010" = false) kw ->
  exists rest, replace (newline +:+ body) kw = newline +:+ rest.
Proof.
  unfold replace. intros Hkw. revert body.
  induction Hkw as [|[k v] kw (a & k' & Hk & Ha) _ IH]; intros body;
    cbn [foldl].
  - by exists body.
  - cbn [fst snd] in *. subst k. unfold Py.replace.
    change (newline +:+ body) with (String "010" body).
    rewrite replace_from_head; [apply IH | | done].
    cbn [Py.startswith]. by rewrite Ha.
Qed.

Section first_line.
Variable serialize_as_go_string : string -> string.
Variable file__ : string.
Variable rc_command_options : string -> list GoOption.

(** X12. The code of a command starts with a newline: the first eighteen
    characters of the template, its build tag, are cut off and no marker
    can match across the newline put in their place. *)
Theorem go_code_starts_with_newline (name : string) (cmd : RemoteCommand)
    (template code : string) :
  go_code_for_remote_command serialize_as_go_string file__ rc_command_options
    name cmd template = Ok code ->
  exists rest, code = newline +:+ rest.
Proof.
  unfold go_code_for_remote_command.
  destruct (parse_protocol_spec (protocol_spec cmd)) as [t|]; [| done].
  cbn [mbind result_bind].
  destruct (unhandled (resolve_fields rc_command_options name cmd t));
    [| done].
  case_decide; [done |]. intros Hc.
  match type of Hc with
  | Ok ?x = _ => assert (code = x) as -> by congruence
  end.
  apply replace_keeps_newline.
  repeat (constructor; [by eexists _, _ |]). constructor.
Qed.

End first_line.

(** X13. The name of a command on the command line, its name with every
    underscore replaced by a dash, holds no underscore and is as long as
    the name. *)
Theorem cli_name_no_underscore (name : string) :
  Py.contains_char "_" (Py.replace "_" "-" name) = false /\
  String.length (Py.replace "_" "-" name) = String.length name.
Proof.
  unfold Py.replace. induction name as [|c name [IH1 IH2]]; [done |].
  cbn [Py.replace_from Py.startswith andb String.length].
  destruct (Py.char_eqb "_" c) eqn:E; cbn [andb].
  - change ("-" +:+ ?s) with (String "-" s).
    cbn [Py.contains_char String.length]. rewrite IH1, IH2. done.
  - cbn [Py.contains_char String.length]. rewrite E, IH1, IH2. done.
Qed.

(** ** What the writer leaves alone *)

Lemma app_new_ne (path : string) : path +:+ ".new" <> path.
Proof.
  intros E. apply (f_equal String.length) in E.
  rewrite PyFacts.length_app in E. simpl in E. lia.
Qed.

Lemma replace_if_needed_lookup (file__ path output : string) (w : World) :
  files (replace_if_needed file__ path false output w) !! path
  = Some (banner file__ +:+ output).
Proof.
  unfold replace_if_needed. case_decide as E; cbn [files].
  - apply lookup_insert_eq.
  - destruct (files w !! path) as [s|]; cbn [from_option id] in E; [by subst |].
    by destruct (banner_app_nonempty file__ output).
Qed.

Lemma replace_if_needed_other (file__ path output p : string) (w : World) :
  p <> path ->
  files (replace_if_needed file__ path false output w) !! p = files w !! p.
Proof.
  intros Hp. unfold replace_if_needed. case_decide; cbn [files]; [| done].
  by apply lookup_insert_ne.
Qed.


(** X14. The writer touches no file but the one it is given, and with
    [show_diff] the scratch file beside it, which is gone afterwards even
    if it was there before; [changed] only grows, by that one path or not
    at all. *)
Theorem replace_if_needed_frame (file__ path output : string)
    (show_diff : bool) (w : World) :
  let w1 := replace_if_needed file__ path show_diff output w in
  (forall p, p <> path -> p <> path +:+ ".new" ->
     files w1 !! p = files w !! p) /\
  (show_diff = false -> files w1 !! (path +:+ ".new") = files w !! (path +:+ ".new")) /\
  (show_diff = true -> w1 <> w -> files w1 !! (path +:+ ".new") = None) /\
  (changed w1 = changed w \/ changed w1 = changed w ++ [path]).
Proof.
  intros w1. subst w1. unfold replace_if_needed.
  case_decide as E; cbn [files changed]; [| by repeat split; auto].
  split; [| split; [| split]].
  - intros p Hp Hn. rewrite lookup_insert_ne by done.
    destruct show_diff; [| done].
    by rewrite lookup_delete_ne, lookup_insert_ne.
  - intros ->. apply lookup_insert_ne. intros H. by apply (app_new_ne path).
  - intros -> _. rewrite lookup_insert_ne
      by (intros H; by apply (app_new_ne path)).
    apply lookup_delete_eq.
  - by right.
Qed.

(** ** Runs of writes *)

Section runs.
Variable file__ : string.

Local Abbreviation run := (write_all file__).

Lemma write_all_cons (p o : string) (l : list (string * string)) (w : World) :
  run ((p, o) :: l) w = run l (replace_if_needed file__ p false o w).
Proof. done. Qed.

Lemma write_all_other (l : list (string * string)) (w : World) (p : string) :
  p ∉ l.*1 -> files (run l w) !! p = files w !! p.
Proof.
  revert w. induction l as [|[p0 o0] l IH]; intros w Hp; [done |].
  cbn [fmap list_fmap fst] in Hp. apply not_elem_of_cons in Hp as [Hne Hp].
  rewrite write_all_cons, IH by done. by apply replace_if_needed_other.
Qed.

Lemma write_all_lookup (l : list (string * string)) (w : World)
    (p o : string) :
  (forall q o1 o2, (q, o1) ∈ l -> (q, o2) ∈ l -> o1 = o2) ->
  (p, o) ∈ l -> files (run l w) !! p = Some (banner file__ +:+ o).
Proof.
  revert w. induction l as [|[p0 o0] l IH]; intros w Hfun Hin.
  { by apply elem_of_nil in Hin. }
  rewrite write_all_cons.
  assert (forall q o1 o2, (q, o1) ∈ l -> (q, o2) ∈ l -> o1 = o2) as Hfun'.
  { intros q o1 o2 H1 H2. apply (Hfun q); by right. }
  destruct (decide (p ∈ l.*1)) as [Hl | Hl].
  - apply list_elem_of_fmap in Hl as ([p' o'] & -> & Hl). cbn [fst] in *.
    assert (o = o') as -> by (apply (Hfun p'); [done | by right]).
    by apply IH.
  - apply elem_of_cons in Hin as [[= -> ->] | Hin].
    + rewrite write_all_other by done. apply replace_if_needed_lookup.
    + destruct Hl. apply list_elem_of_fmap. by exists (p, o).
Qed.




End runs.

Lemma app_inj_r (s1 s2 t : string) : s1 +:+ t = s2 +:+ t -> s1 = s2.
Proof.
  revert s2. induction s1 as [|c s1 IH]; intros [|d s2] E; simpl in E.
  - done.
  - apply (f_equal String.length) in E. simpl in E.
    rewrite PyFacts.length_app in E. lia.
  - apply (f_equal String.length) in E. simpl in E.
    rewrite PyFacts.length_app in E. lia.
  - injection E as -> E. by rewrite (IH s2 E).
Qed.

Lemma at_command_path_inj (n1 n2 : string) :
  at_command_path n1 = at_command_path n2 -> n1 = n2.
Proof.
  unfold at_command_path. intros E%String.app_inj. by apply app_inj_r in E.
Qed.

Lemma at_command_path_not_global (n : string) :
  at_command_path n <> global_opts_path.
Proof. unfold at_command_path, global_opts_path. discriminate. Qed.


(** ** The files of the remote commands *)

Section update_facts.
Variable serialize_as_go_string : string -> string.
Variable file__ : string.
Variable rc_command_options : string -> list GoOption.
Variable all_command_names : list string.
Variable command_for_name : string -> RemoteCommand.
Variable global_options : list GoOption.
Variable as_global_option : GoOption -> string.

Local Abbreviation compile_name := (fun template name =>
  go_code_for_remote_command serialize_as_go_string file__ rc_command_options
    name (command_for_name name) template).
Local Abbreviation loop :=
  (update_at_commands_loop serialize_as_go_string file__ rc_command_options
     command_for_name).
Local Abbreviation update :=
  (update_at_commands serialize_as_go_string file__ rc_command_options
     all_command_names command_for_name global_options as_global_option).
Local Abbreviation global_code :=
  (global_opts_code global_options as_global_option).


Lemma update_at_commands_loop_fail (template : string)
    (pre post codes : list string) (bad : string) (e : exn) (w : World) :
  Forall2 (fun n c => compile_name template n = Ok c) pre codes ->
  compile_name template bad = Raise e ->
  loop template (pre ++ bad :: post) w
  = (write_all file__ (zip (at_command_path <$> pre) codes) w, Some e).
Proof.
  intros H Hb. revert w. induction H as [|n c names codes Hc _ IH]; intros w.
  - cbn [app update_at_commands_loop]. unfold update_at_command.
    by rewrite Hb.
  - cbn [app update_at_commands_loop]. unfold update_at_command. rewrite Hc.
    cbn [mbind result_bind]. by rewrite IH.
Qed.


Lemma compiled_entries_functional (template : string)
    (names codes : list string) :
  Forall2 (fun n c => compile_name template n = Ok c) names codes ->
  forall p o,
    (p, o) ∈ zip (at_command_path <$> names) codes ->
    exists n, n ∈ names /\ p = at_command_path n /\
              compile_name template n = Ok o.
Proof.
  induction 1 as [|n c names codes Hc _ IH]; intros p o Hin.
  { by apply elem_of_nil in Hin. }
  cbn [fmap list_fmap zip zip_with] in Hin.
  apply elem_of_cons in Hin as [[= -> ->] | Hin].
  - exists n. split; [left | done].
  - destruct (IH p o Hin) as (n' & ? & ? & ?). exists n'.
    split; [by right | done].
Qed.

(** X15. A command that does not compile stops the run with its
    exception: the files of the commands before it are written and stay
    written, while its own file and the file of the global options are
    left as they were. *)
Theorem update_at_commands_stops (template : string)
    (pre post codes : list string) (bad : string) (e : exn) (w : World) :
  files w !! template_path = Some template ->
  all_command_names = pre ++ bad :: post ->
  Forall2 (fun n c => compile_name template n = Ok c) pre codes ->
  compile_name template bad = Raise e ->
  let w' := write_all file__ (zip (at_command_path <$> pre) codes) w in
  update w = (w', Some (Raised e)) /\
  (forall n c, (at_command_path n, c) ∈ zip (at_command_path <$> pre) codes ->
     files w' !! at_command_path n = Some (banner file__ +:+ c)) /\
  files w' !! at_command_path bad = files w !! at_command_path bad /\
  files w' !! global_opts_path = files w !! global_opts_path.
Proof.
  intros Ht Hn Hpre Hbad w'.
  pose proof (compiled_entries_functional template pre codes Hpre) as Hent.
  split; [| split; [| split]].
  - unfold update_at_commands. rewrite Ht, Hn.
    by rewrite (update_at_commands_loop_fail template pre post codes bad e).
  - intros n c Hin. apply write_all_lookup; [| done].
    intros q o1 o2 (n1 & _ & -> & H1)%Hent (n2 & _ & E & H2)%Hent.
    apply at_command_path_inj in E as <-. congruence.
  - apply write_all_other. intros ([p o] & E & Hin)%list_elem_of_fmap.
    cbn [fst] in E. subst p.
    apply Hent in Hin as (n & _ & ->%at_command_path_inj & Hc). congruence.
  - apply write_all_other. intros ([p o] & E & Hin)%list_elem_of_fmap.
    cbn [fst] in E. subst p. apply Hent in Hin as (n & _ & E & _).
    symmetry in E. by apply at_command_path_not_global in E.
Qed.



End update_facts.

(** ** Wrapped kittens *)

Lemma has_space_snoc (s : string) (c : ascii) :
  has_space (s +:+ String c EmptyString) = has_space s || Py.is_space c.
Proof.
  induction s as [|d s IH]; cbn [String.append has_space].
  - by rewrite orb_false_r.
  - by rewrite IH, orb_assoc.
Qed.

Lemma split_ws_from_words (cur s : string) :
  has_space cur = false ->
  Forall (fun x => x <> EmptyString /\ has_space x = false)
    (PyText.split_ws_from cur s).
Proof.
  revert cur. induction s as [|c s IH]; intros cur Hcur;
    cbn [PyText.split_ws_from].
  - destruct cur; [constructor |]. by repeat constructor.
  - destruct (Py.is_space c) eqn:Ec.
    + destruct cur; [by apply IH |]. constructor; [done | by apply IH].
    + apply IH. by rewrite has_space_snoc, Hcur, Ec.
Qed.

Lemma filter_nonempty_id (l : list string) :
  Forall (fun x => x <> EmptyString /\ has_space x = false) l ->
  filter (fun x => x <> EmptyString) l = l.
Proof.
  induction 1 as [|x l [Hx _] _ IH]; [done |].
  by rewrite filter_cons_True, IH.
Qed.

(** X18. The wrapped kittens come back in ascending order, each a
    non-empty name without white space. *)
Theorem wrapped_kittens_sorted (fs : gmap string string) (l : list string) :
  wrapped_kittens fs = Returned l ->
  StronglySorted String.le l /\
  Forall (fun x => x <> EmptyString /\ has_space x = false) l.
Proof.
  unfold wrapped_kittens. destruct (fs !! wrapper_script) as [text|]; [| done].
  induction (PyText.file_lines text) as [|line lines IH];
    cbn [wrapped_kittens_of]; [done |].
  destruct (Py.startswith wrapped_kittens_marker line); [| done].
  intros [= <-]. unfold PyText.sorted. split.
  - apply (StronglySorted_merge_sort _).
  - rewrite filter_nonempty_id by by apply split_ws_from_words.
    rewrite merge_sort_Permutation. by apply split_ws_from_words.
Qed.

(** X19. Without the wrapper script the lookup fails with
    [FileNotFoundError]; with a script that has no line starting with the
    marker it fails with the [Exception] of line 302; otherwise the first
    such line decides, and its names are the words between the first
    double quote and the last character of the stripped line. *)
Theorem wrapped_kittens_lines (fs : gmap string string) :
  (fs !! wrapper_script = None ->
   wrapped_kittens fs = Failed (FileNotFoundError wrapper_script)) /\
  (forall text,
     fs !! wrapper_script = Some text ->
     Forall (fun line => Py.startswith wrapped_kittens_marker line = false)
       (PyText.file_lines text) ->
     wrapped_kittens fs =
     Failed (Exception "Failed to read wrapped kittens from kitty wrapper script")) /\
  (forall text pre line post,
     fs !! wrapper_script = Some text ->
     PyText.file_lines text = pre ++ line :: post ->
     Forall (fun line => Py.startswith wrapped_kittens_marker line = false) pre ->
     Py.startswith wrapped_kittens_marker line = true ->
     wrapped_kittens fs =
     Returned
       (PyText.sorted
          (PyText.split_ws
             (Py.drop_last
                (PyText.after_first (ascii_of_nat 34) (Py.strip line)))))).
Proof.
  unfold wrapped_kittens. split; [| split].
  - by intros ->.
  - intros text -> H. induction H as [|line lines Hl _ IH]; [done |].
    cbn [wrapped_kittens_of]. by rewrite Hl.
  - intros text pre line post -> -> Hpre Hline.
    induction Hpre as [|l0 pre Hl _ IH]; cbn [app wrapped_kittens_of].
    + rewrite Hline. rewrite filter_nonempty_id; [done |].
      by apply split_ws_from_words.
    + by rewrite Hl.
Qed.

(** ** Enumerations *)

Lemma define_enum_loop (type_name : string) (actions ans stringer : list string)
    (i : nat) :
  foldl (define_enum_step type_name) (ans, stringer)
    (zip (seq i (length actions)) actions)
  = (ans ++
     match i, actions with
     | 0, ac :: rest => (ac +:+ " " +:+ type_name +:+ " = iota") :: rest
     | _, _ => actions
     end,
     stringer ++
     ((fun ac => "case " +:+ ac +:+ ": return " +:+ dquote +:+ ac +:+ dquote)
        <$> actions)).
Proof.
  revert ans stringer i. induction actions as [|ac actions IH];
    intros ans stringer i.
  - destruct i; cbn; by rewrite !app_nil_r.
  - cbn [length seq zip zip_with foldl define_enum_step]. rewrite IH.
    rewrite <- !app_assoc. cbn [fmap list_fmap app].
    destruct i; [by rewrite decide_True | by rewrite decide_False].
Qed.

(** X20. An enumeration declares one constant for each line of the items
    that is not blank, stripped and in order, with the type and [iota] on
    the first one only, and has one case of [String()] for each; without
    such a line the constant block and the switch are empty. *)
Theorem define_enum_text (package_name type_name items underlying_type : string) :
  let actions :=
    filter (fun x => x <> EmptyString) (Py.strip <$> Py.splitlines items) in
  define_enum package_name type_name items underlying_type =
  Py.join newline
    ([ "package " +:+ package_name;
       "import " +:+ dquote +:+ "strconv" +:+ dquote;
       "type " +:+ type_name +:+ " " +:+ underlying_type;
       "const (" ] ++
     match actions with
     | [] => []
     | ac :: rest => (ac +:+ " " +:+ type_name +:+ " = iota") :: rest
     end ++
     [ ")";
       "func (ac " +:+ type_name +:+ ") String() string {";
       "switch(ac) {" ] ++
     ((fun ac => "case " +:+ ac +:+ ": return " +:+ dquote +:+ ac +:+ dquote)
        <$> actions) ++
     [ "}" +:+ newline +:+ "return strconv.Itoa(int(ac)) }" ]).
Proof.
  intros actions. unfold define_enum. fold actions.
  rewrite define_enum_loop. f_equal.
  rewrite <- !app_assoc. cbn [app]. do 4 f_equal.
  destruct actions; cbn [app]; by rewrite <- ?app_assoc.
Qed.

(** ** Worked runs *)

Lemma go_code_exact_match_witness :
  is_Ok (go_code_for_remote_command id "gen-go-code.py" exact_options "set_x"
           (sample_command sample_protocol_spec) sample_template).
Proof.
  apply (go_code_exact_match id "gen-go-code.py" exact_options "set_x"
           (sample_command sample_protocol_spec) sample_template sample_table).
  - vm_compute. reflexivity.
  - intros f [-> | [-> | []%elem_of_nil]%elem_of_cons]%elem_of_cons;
      vm_compute; by eexists.
  - intros o [-> | [-> | [-> | []%elem_of_nil]%elem_of_cons]%elem_of_cons]
      %elem_of_cons.
    + right. exists match_window_field. split; [left | reflexivity].
    + right. exists foo_bar_field.
      split; [right; left | reflexivity].
    + left. by_evaluation.
Defined.

Lemma go_code_starts_with_newline_witness :
  exists rest,
    newline +:+ newline +:+ "package at // send_text send-text"
      +:+ newline
      +:+ "payload.Foo_bar = escape_list_of_strings(options_send_text.FooBar)"
      +:+ newline
      +:+ "payload.Match_window = escaped_string(options_send_text.Match)"
    = newline +:+ rest.
Proof.
  apply (go_code_starts_with_newline id "gen-go-code.py"
           (fun _ => sample_options "get_x") "send_text"
           (sample_command sample_protocol_spec) sample_template).
  vm_compute. reflexivity.
Defined.

Lemma replace_without_markers_witness :
  replace "package at" [("CMD_NAME", "ls"); ("CLI_NAME", "ls")] = "package at".
Proof.
  apply (replace_without_markers "package at").
  repeat constructor; try discriminate;
    intros H%occurs_inb_true; vm_compute in H; discriminate.
Defined.

Lemma parse_protocol_spec_first_error_witness :
  parse_protocol_spec broken_protocol_spec =
  Raise (TypeError "Unknown JSON field type: colour").
Proof.
  apply (parse_protocol_spec_first_error broken_protocol_spec
           ["first/str: A field"] ["third/int: Never reached"]
           "second/colour: Another").
  - reflexivity.
  - repeat constructor. eexists _, _. split; reflexivity.
  - reflexivity.
  - reflexivity.
Defined.

Lemma wrapped_kittens_sorted_witness :
  StronglySorted String.le ["clipboard"; "icat"; "ssh"] /\
  Forall (fun x => x <> EmptyString /\ has_space x = false)
    ["clipboard"; "icat"; "ssh"].
Proof.
  apply (wrapped_kittens_sorted {[ wrapper_script := sample_wrapper_script ]}).
  vm_compute. reflexivity.
Defined.

(** A line without its closing quote loses the last letter of its last
    name. *)
Example wrapped_kittens_unterminated :
  wrapped_kittens_of
    ["    wrapped_kittens=" +:+ dquote +:+ "ssh icat" +:+ newline]
  = Returned ["ica"; "ssh"].
Proof. vm_compute. reflexivity. Qed.

Lemma update_at_commands_stops_witness :
  let w' :=
    write_all "gen-go-code.py"
      (zip (at_command_path <$> ["ls"])
         [newline +:+ newline +:+ "package at // ls ls" +:+ newline])
      sample_world in
  update_at_commands id "gen-go-code.py" sample_rc_options ["ls"; "bad"; "ls"]
    sample_command_for_name [] (fun _ => EmptyString) sample_world
  = (w', Some (Raised (SystemExit "Cant map fields: bar for cmd: bad"))) /\
  (forall n c,
     (at_command_path n, c)
       ∈ zip (at_command_path <$> ["ls"])
           [newline +:+ newline +:+ "package at // ls ls" +:+ newline] ->
     files w' !! at_command_path n = Some (banner "gen-go-code.py" +:+ c)) /\
  files w' !! at_command_path "bad"
  = files sample_world !! at_command_path "bad" /\
  files w' !! global_opts_path = files sample_world !! global_opts_path.
Proof.
  apply (update_at_commands_stops id "gen-go-code.py" sample_rc_options
           ["ls"; "bad"; "ls"] sample_command_for_name [] (fun _ => EmptyString)
           sample_template ["ls"] ["ls"]
           [newline +:+ newline +:+ "package at // ls ls" +:+ newline]
           "bad" (SystemExit "Cant map fields: bar for cmd: bad") sample_world).
  - reflexivity.
  - reflexivity.
  - constructor; [vm_compute; reflexivity | constructor].
  - vm_compute. reflexivity.
Defined.


Example update_at_commands_changed_paths :
  changed
    (update_at_commands id "gen-go-code.py" sample_rc_options ["ls"; "ls"]
       sample_command_for_name [sample_option "Debug"] (fun _ => "flag")
       sample_world).1
  = [at_command_path "ls"; global_opts_path].
Proof. vm_compute. reflexivity. Qed.

